(** * PDF-checkmaker: a model of [pdf_generator.py]

    The script merges the rows of a CSV table with an HTML template and hands
    the result to an HTML-to-PDF library.  This file embeds its functions in
    Rocq, one definition per Python function, and proves the properties the
    specification states about them.

    - Python values read from a CSV file are integers, floats or strings
      ([value]); floats are IEEE binary64 numbers, modelled by [spec_float]
      with the operations of [SpecFloat] at precision 53.
    - A Python call either returns or raises ([result]).
    - The conversions [float(str)], [str(float)] and [int(str)] belong to the
      Python runtime; the development is parametric in them ([PyBuiltins]).
    - The file system, the console and the keyboard are an explicit [world]. *)

From Stdlib Require Import ZArith String Ascii List Lia Bool DecimalString.
From Stdlib Require Import DecimalZ Sorted.
From Stdlib Require Import Floats.SpecFloat.
From stdpp Require Import base option list gmap strings.

Open Scope string_scope.
Open Scope list_scope.
Open Scope Z_scope.

(** ** Floats *)

Definition float : Type := spec_float.
Definition nan : float := S754_nan.
Definition fzero : float := S754_zero false.
Definition fadd : float -> float -> float := SFadd 53 1024.
Definition feqb : float -> float -> bool := SFeqb.
Definition fltb : float -> float -> bool := SFltb.

(** The nearest binary64 number to an integer (ties to even). *)
Definition float_of_Z (z : Z) : float := binary_normalize 53 1024 z 0 false.

Definition is_nan (x : float) : bool :=
  match x with S754_nan => true | _ => false end.

Definition is_finite (x : float) : bool :=
  match x with S754_zero _ | S754_finite _ _ _ => true | _ => false end.

(** ** Exceptions and results *)

Inductive exn : Type :=
  | AttributeError (name : string)
  | KeyError (key : string)
  | IndexError
  | TypeError
  | ValueError
  | OverflowError
  | EOFError
  | OSError
  | Exception (msg : string)
  | KeyboardInterrupt
  | SystemExit (code : Z).

(** [KeyboardInterrupt] and [SystemExit] derive from [BaseException] only;
    an [except Exception] clause does not catch them. *)
Definition is_Exception (e : exn) : bool :=
  match e with
  | KeyboardInterrupt | SystemExit _ => false
  | _ => true
  end.

Inductive result (A : Type) : Type :=
  | Ok (a : A)
  | Raise (e : exn).
Arguments Ok {A} a.
Arguments Raise {A} e.

#[export] Instance result_ret : MRet result := fun _ a => Ok a.
#[export] Instance result_bind : MBind result := fun _ _ f m =>
  match m with
  | Ok a => f a
  | Raise e => Raise e
  end.

(** ** Values of a table *)

Inductive value : Type :=
  | VInt (z : Z)
  | VFloat (f : float)
  | VStr (s : string).

Class PyBuiltins : Type := {
  (** [float(s)] on a string; [None] stands for [ValueError]. *)
  float_of_str : string -> option float;
  (** [str(x)] on a float. *)
  str_of_float : float -> string;
  (** [int(s)] on a string; [None] stands for [ValueError]. *)
  int_of_str : string -> option Z
}.

Definition str_of_Z (z : Z) : string := NilZero.string_of_int (Z.to_int z).

(** [x == y] between a column entry and a scalar; an integer that meets a
    float is converted to a float first. *)
Definition py_eq (x y : value) : bool :=
  match x, y with
  | VInt a, VInt b => a =? b
  | VFloat a, VFloat b => feqb a b
  | VInt a, VFloat b => feqb (float_of_Z a) b
  | VFloat a, VInt b => feqb a (float_of_Z b)
  | VStr a, VStr b => String.eqb a b
  | _, _ => false
  end.

(** [x < y]; a string and a number cannot be ordered. *)
Definition py_lt (x y : value) : result bool :=
  match x, y with
  | VInt a, VInt b => Ok (a <? b)
  | VFloat a, VFloat b => Ok (fltb a b)
  | VInt a, VFloat b => Ok (fltb (float_of_Z a) b)
  | VFloat a, VInt b => Ok (fltb a (float_of_Z b))
  | VStr a, VStr b => Ok (String.ltb a b)
  | _, _ => Raise TypeError
  end.

Definition value_is_nan (v : value) : bool :=
  match v with VFloat f => is_nan f | _ => false end.

Section Builtins.
Context {py : PyBuiltins}.

(** [float(v)] *)
Definition py_float (v : value) : result float :=
  match v with
  | VInt z =>
      let f := float_of_Z z in
      if is_finite f then Ok f else Raise OverflowError
  | VFloat f => Ok f
  | VStr s =>
      match float_of_str s with
      | Some f => Ok f
      | None => Raise ValueError
      end
  end.

(** [str(v)], also what an f-string field [{v}] prints. *)
Definition py_str (v : value) : string :=
  match v with
  | VInt z => str_of_Z z
  | VFloat f => str_of_float f
  | VStr s => s
  end.

End Builtins.

(** ** [f"{x:.2f}"] *)

Definition digit_char (d : Z) : ascii := ascii_of_nat (48 + Z.to_nat d).

Definition sign_str (s : bool) : string := if s then "-" else "".

(** [m * 2^e] rounded to the nearest integer, ties to even. *)
Definition round_half_even (m e : Z) : Z :=
  if 0 <=? e then m * 2 ^ e
  else
    let d := 2 ^ (- e) in
    let q := m / d in
    let r := m mod d in
    if (2 * r <? d) then q
    else if (d <? 2 * r) then q + 1
    else if Z.even q then q else q + 1.

(** [n] hundredths printed with two decimals. *)
Definition hundredths (n : Z) : string :=
  str_of_Z (n / 100) +:+
  String "." (String (digit_char (n mod 100 / 10))
             (String (digit_char (n mod 10)) "")).

Definition format_2f (x : float) : string :=
  match x with
  | S754_nan => "nan"
  | S754_infinity s => sign_str s +:+ "inf"
  | S754_zero s => sign_str s +:+ "0.00"
  | S754_finite s m e =>
      sign_str s +:+ hundredths (round_half_even (Z.pos m * 100) e)
  end.

(** A Python number that is an [int] or a [float]: [total_amount]. *)
Inductive number : Type :=
  | NInt (z : Z)
  | NFloat (f : float).

Definition number_to_float (n : number) : float :=
  match n with
  | NInt z => float_of_Z z
  | NFloat f => f
  end.

(** [n + x] for a float [x]; the result is a float. *)
Definition number_add (n : number) (x : float) : number :=
  NFloat (fadd (number_to_float n) x).

Definition format_2f_number (n : number) : string :=
  format_2f (number_to_float n).

(** ** The record table: a pandas [DataFrame]

    The header row names the columns; every data row holds one value per
    column.  A row that is shorter than the header reads as NaN in the missing
    places, as [read_csv] fills them. *)

Record DataFrame : Type := {
  columns : list string;
  rows : list (list value)
}.

(** A row seen with its column names: the named tuple of [itertuples], the
    [Series] of [iloc]. *)
Definition Row : Type := list (string * value).

Fixpoint zip_row (cols : list string) (cells : list value) : Row :=
  match cols with
  | [] => []
  | c :: cs =>
      (c, match cells with v :: _ => v | [] => VFloat nan end)
      :: zip_row cs (tl cells)
  end.

Fixpoint assoc (name : string) (r : Row) : option value :=
  match r with
  | [] => None
  | (c, v) :: r' => if String.eqb c name then Some v else assoc name r'
  end.

(** [row.name] *)
Definition getattr (r : Row) (name : string) : result value :=
  match assoc name r with
  | Some v => Ok v
  | None => Raise (AttributeError name)
  end.

(** [len(df)] *)
Definition df_len (df : DataFrame) : Z := Z.of_nat (length (rows df)).

(** [df.itertuples()] *)
Definition itertuples (df : DataFrame) : list Row :=
  map (zip_row (columns df)) (rows df).

(** [df.iloc[0]]; the values are read as the table holds them. *)
Definition iloc0 (df : DataFrame) : result Row :=
  match rows df with
  | [] => Raise IndexError
  | r :: _ => Ok (zip_row (columns df) r)
  end.

(** [df[name]]: the column as a list, [KeyError] when there is none. *)
Definition df_column (df : DataFrame) (name : string) : result (list value) :=
  if existsb (String.eqb name) (columns df)
  then Ok (map (fun r => default (VFloat nan) (assoc name (zip_row (columns df) r)))
               (rows df))
  else Raise (KeyError name).

(** [df[mask]]: the rows where the mask holds. *)
Fixpoint select_rows (mask : list bool) (rs : list (list value)) : list (list value) :=
  match mask, rs with
  | b :: mask', r :: rs' =>
      if b then r :: select_rows mask' rs' else select_rows mask' rs'
  | _, _ => []
  end.

Definition df_mask (df : DataFrame) (mask : list bool) : DataFrame :=
  {| columns := columns df; rows := select_rows mask (rows df) |}.

(** [df[df[name] == x]] *)
Definition df_where_eq (df : DataFrame) (name : string) (x : value) : result DataFrame :=
  col ← df_column df name;
  Ok (df_mask df (map (fun v => py_eq v x) col)).

(** ** [string.Template.safe_substitute]

    The pattern of [Template] matches a dollar sign followed by one of, in
    this order: a second dollar sign ("escaped"); an identifier ("named"); an
    identifier between braces ("braced"); nothing ("invalid").  An identifier
    is a letter or underscore followed by letters, digits and underscores,
    ASCII only, in either case.  [sub] replaces the matches found from left to
    right. *)

Definition ascii_in (lo hi c : ascii) : bool :=
  (nat_of_ascii lo <=? nat_of_ascii c)%nat && (nat_of_ascii c <=? nat_of_ascii hi)%nat.

Definition is_digit (c : ascii) : bool := ascii_in "0" "9" c.

Definition is_id_start (c : ascii) : bool :=
  Ascii.eqb c "_" || ascii_in "a" "z" c || ascii_in "A" "Z" c.

Definition is_id_char (c : ascii) : bool :=
  is_id_start c || is_digit c.

Fixpoint take_while (p : ascii -> bool) (l : list ascii) : list ascii :=
  match l with
  | c :: l' => if p c then c :: take_while p l' else []
  | [] => []
  end.

(** The longest identifier at the head of [l]; empty when there is none. *)
Definition ident_at (l : list ascii) : list ascii :=
  match l with
  | c :: l' => if is_id_start c then c :: take_while is_id_char l' else []
  | [] => []
  end.

Inductive token : Type :=
  | TLit (c : ascii)          (* a character outside every match *)
  | TEscaped                  (* $$ *)
  | TNamed (name : string)    (* $name *)
  | TBraced (name : string)   (* ${name} *)
  | TInvalid.                 (* a lone $ *)

(** The match that starts at a [$], given the text after it: the token and the
    number of characters it takes after the [$].  The alternatives are tried
    in the order of the pattern. *)
Definition match_delimiter (rest : list ascii) : token * nat :=
  match rest with
  | "$"%char :: _ => (TEscaped, 1%nat)
  | _ =>
      match ident_at rest with
      | (_ :: _) as n => (TNamed (string_of_list_ascii n), length n)
      | [] =>
          match rest with
          | "{"%char :: r =>
              match ident_at r with
              | (_ :: _) as n =>
                  match drop (length n) r with
                  | "}"%char :: _ =>
                      (TBraced (string_of_list_ascii n), S (S (length n)))
                  | _ => (TInvalid, 0%nat)
                  end
              | [] => (TInvalid, 0%nat)
              end
          | _ => (TInvalid, 0%nat)
          end
      end
  end.

(** Scanning: [skip] characters belong to the match found before. *)
Fixpoint scan (skip : nat) (l : list ascii) : list token :=
  match l with
  | [] => []
  | c :: l' =>
      match skip with
      | S k => scan k l'
      | O =>
          if Ascii.eqb c "$"
          then let '(t, n) := match_delimiter l' in t :: scan n l'
          else TLit c :: scan 0 l'
      end
  end.

Definition tokenize (template : string) : list token :=
  scan 0 (list_ascii_of_string template).

(** The text a token stands for in the template: [mo.group()]. *)
Definition token_text (t : token) : string :=
  match t with
  | TLit c => String c ""
  | TEscaped => "$$"
  | TNamed n => "$" +:+ n
  | TBraced n => "${" +:+ n +:+ "}"
  | TInvalid => "$"
  end.

(** [convert] of [safe_substitute]: a missing key gives back the match. *)
Definition convert (mapping : gmap string string) (t : token) : string :=
  match t with
  | TNamed n | TBraced n =>
      match mapping !! n with
      | Some v => v
      | None => token_text t
      end
  | TEscaped => "$"
  | TLit _ | TInvalid => token_text t
  end.

Definition join (l : list string) : string := foldr String.append "" l.

Definition safe_substitute (mapping : gmap string string) (template : string) : string :=
  join (map (convert mapping) (tokenize template)).

(** ** The world of the script *)

(** A file found by [glob]: its name and its name without the extension. *)
Record Path : Type := {
  name : string;
  stem : string
}.

(** What the script prints; one constructor per [print] call of the source. *)
Inductive message : Type :=
  | MsgMenuHeader (title : string)
  | MsgMenu (items : list string)
  | MsgOutOfRange (max_value : Z)
  | MsgNotANumber
  | MsgCancelled
  | MsgNoCsvFiles
  | MsgNoTemplates
  | MsgCsvError (file : string)
  | MsgTemplateError (file : string)
  | MsgNoActData
  | MsgNoDataForId (id : value)
  | MsgUnknownTemplate (template_name : string)
  | MsgPdfCreated (path : string)
  | MsgPdfError (e : exn)
  | MsgViewerError
  | MsgDirCreated (dir : string)
  | MsgStart
  | MsgLoadingTemplate (file : string)
  | MsgLoadingData (file : string)
  | MsgGenerating (id : value)
  | MsgOpening
  | MsgDone (filename : string)
  | MsgFailed
  | MsgBatchStart (count : Z)
  | MsgBatchItem (idx count : Z) (id : value)
  | MsgMark (ok : bool)
  | MsgCreated (count : Z) (filenames : list string)
  | MsgErrors (count : Z) (labels : list string)
  | MsgSavedIn
  | MsgError (e : exn).

(** What [input()] receives: a line, or Ctrl-C.  At the end of the input
    [input()] raises [EOFError]. *)
Inductive key_event : Type :=
  | Line (s : string)
  | CtrlC.

Record world : Type := {
  files : gmap string string;      (* path to content *)
  dirs : list string;              (* the directories that exist *)
  console : list message;          (* printed so far, oldest first *)
  keyboard : list key_event        (* still to be typed *)
}.

Definition set_files (f : gmap string string -> gmap string string) (w : world) : world :=
  {| files := f (files w); dirs := dirs w; console := console w; keyboard := keyboard w |}.
Definition set_dirs (f : list string -> list string) (w : world) : world :=
  {| files := files w; dirs := f (dirs w); console := console w; keyboard := keyboard w |}.
Definition set_console (f : list message -> list message) (w : world) : world :=
  {| files := files w; dirs := dirs w; console := f (console w); keyboard := keyboard w |}.
Definition set_keyboard (k : list key_event) (w : world) : world :=
  {| files := files w; dirs := dirs w; console := console w; keyboard := k |}.

(** A computation: it changes the world and returns or raises. *)
Definition M (A : Type) : Type := world -> result A * world.

Definition ret {A} (a : A) : M A := fun w => (Ok a, w).
Definition bind {A B} (m : M A) (k : A -> M B) : M B := fun w =>
  match m w with
  | (Ok a, w') => k a w'
  | (Raise e, w') => (Raise e, w')
  end.
Definition raise {A} (e : exn) : M A := fun w => (Raise e, w).
Definition lift {A} (r : result A) : M A := fun w => (r, w).
Definition print (m : message) : M unit :=
  fun w => (Ok tt, set_console (fun c => c ++ [m]) w).

Notation "'do' x <- m ; k" := (bind m (fun x => k))
  (at level 10, x name, m at level 99, k at level 200).
Notation "m ;; k" := (bind m (fun _ => k))
  (at level 100, k at level 200, right associativity).

(** The libraries and files around the script. *)
Inductive weasy_outcome : Type :=
  | WeasyWritten (pdf : string)
      (* write_pdf returned; the target holds [pdf] *)
  | WeasyRaised (e : exn) (left : option string).
      (* write_pdf raised; the target is untouched or holds [left] *)

Inductive pisa_outcome : Type :=
  | PisaReturned (written : string) (err : Z)
      (* CreatePDF returned; [written] went to the file; [err] is pdf.err *)
  | PisaRaised (e : exn) (written : string).

Class Environment : Type := {
  USE_WEASYPRINT : bool;
  USE_XHTML2PDF : bool;
  (** [HTML(string=html).write_pdf(path, ...)] *)
  write_pdf : string -> string -> weasy_outcome;
  (** whether [open(path, 'wb')] succeeds *)
  open_wb : string -> bool;
  (** [pisa.CreatePDF(html, dest=file, ...)] *)
  CreatePDF : string -> pisa_outcome;
  (** [list(DATA_DIR.glob('*.csv'))], [list(TEMPLATES_DIR.glob('*.html'))] *)
  glob_csv : list Path;
  glob_html : list Path;
  (** [pd.read_csv(path)], [open(path).read()]; [None] when they raise *)
  read_csv : Path -> option DataFrame;
  read_text : Path -> option string;
  (** whether the call that starts the system viewer returns: [os.startfile]
      may raise, [os.system] returns a status that is not looked at; what the
      viewer and the shell do to the files is outside the model *)
  start_viewer : string -> bool
}.

(** ** The template renderer *)

(** What a render function gives back: the HTML, or [None] after printing one
    message. *)
Inductive rendered : Type :=
  | Html (html : string)
  | PrintedNone (msg : message).

Definition nl : string := String (ascii_of_nat 10) "".

(** The f-string of one table row. *)
Definition position_row (idx work_name quantity unit unit_price total : string) : string :=
  nl +:+ "      <tr>" +:+
  nl +:+ "        <td>" +:+ idx +:+ "</td>" +:+
  nl +:+ "        <td>" +:+ work_name +:+ "</td>" +:+
  nl +:+ "        <td>" +:+ quantity +:+ "</td>" +:+
  nl +:+ "        <td>" +:+ unit +:+ "</td>" +:+
  nl +:+ "        <td>" +:+ unit_price +:+ "</td>" +:+
  nl +:+ "        <td>" +:+ total +:+ "</td>" +:+
  nl +:+ "      </tr>".

(** The keyword arguments of the two [safe_substitute] calls. *)
Definition act_mapping (act_number act_date contract_number object_address
    positions_rows total_amount client contractor : string) : gmap string string :=
  <["act_number" := act_number]>
  (<["act_date" := act_date]>
  (<["contract_number" := contract_number]>
  (<["object_address" := object_address]>
  (<["positions_rows" := positions_rows]>
  (<["total_amount" := total_amount]>
  (<["client" := client]>
  (<["contractor" := contractor]> ∅))))))).

Definition certificate_mapping (student_name course_name cert_date : string)
  : gmap string string :=
  <["student_name" := student_name]>
  (<["course_name" := course_name]>
  (<["cert_date" := cert_date]> ∅)).

Section Renderer.
Context {py : PyBuiltins}.

(** The body of the loop over [enumerate(positions_df.itertuples(), 1)]; the
    state is [(positions_rows, total_amount)]. *)
Definition act_loop_body (st : string * number) (idx : Z) (row : Row)
  : result (string * number) :=
  let '(positions_rows, total_amount) := st in
  let total_amount :=
    (* try: total = float(row.total); total_amount += total
       except: total = 0 *)
    match (v ← getattr row "total"; py_float v) with
    | Ok total => number_add total_amount total
    | Raise _ => total_amount
    end in
  work_name ← getattr row "work_name";
  quantity ← getattr row "quantity";
  unit ← getattr row "unit";
  unit_price ← getattr row "unit_price";
  total ← getattr row "total";
  Ok (positions_rows +:+
        position_row (str_of_Z idx) (py_str work_name) (py_str quantity)
          (py_str unit) (py_str unit_price) (py_str total),
      total_amount).

Fixpoint act_loop (st : string * number) (idx : Z) (rs : list Row)
  : result (string * number) :=
  match rs with
  | [] => Ok st
  | row :: rs' =>
      st' ← act_loop_body st idx row;
      act_loop st' (idx + 1) rs'
  end.

Definition render_act_template (template_html : string) (positions_df : DataFrame)
  : result rendered :=
  if df_len positions_df =? 0 then Ok (PrintedNone MsgNoActData)
  else
    first_row ← iloc0 positions_df;
    '(positions_rows, total_amount) ← act_loop ("", NInt 0) 1 (itertuples positions_df);
    act_number ← getattr first_row "act_number";
    act_date ← getattr first_row "act_date";
    contract_number ← getattr first_row "contract_number";
    object_address ← getattr first_row "object_address";
    client ← getattr first_row "client";
    contractor ← getattr first_row "contractor";
    Ok (Html (safe_substitute
      (act_mapping (py_str act_number) (py_str act_date)
         (py_str contract_number) (py_str object_address)
         positions_rows (format_2f_number total_amount)
         (py_str client) (py_str contractor))
      template_html)).

Definition render_certificate_template (template_html : string) (data_row : Row)
  : result rendered :=
  student_name ← getattr data_row "student_name";
  course_name ← getattr data_row "course_name";
  cert_date ← getattr data_row "cert_date";
  Ok (Html (safe_substitute
    (certificate_mapping (py_str student_name) (py_str course_name)
       (py_str cert_date))
    template_html)).

Definition render_template (template_path : Path) (template_html : string)
    (data_df : DataFrame) (selected_id : value) : result rendered :=
  filtered_df ← df_where_eq data_df "id" selected_id;
  if df_len filtered_df =? 0 then Ok (PrintedNone (MsgNoDataForId selected_id))
  else
    let template_name := stem template_path in
    if String.eqb template_name "act" then
      render_act_template template_html filtered_df
    else if String.eqb template_name "certificate" then
      first_row ← iloc0 filtered_df;
      render_certificate_template template_html first_row
    else Ok (PrintedNone (MsgUnknownTemplate template_name)).

End Renderer.

(** ** [unique()] and [sorted()] *)

(** Equality of the hash table behind [Series.unique]: [==], and NaN equals
    NaN. *)
Definition unique_eq (x y : value) : bool :=
  py_eq x y || (value_is_nan x && value_is_nan y).

(** [Series.unique()]: the first occurrence of every value, in order. *)
Fixpoint unique_from (seen l : list value) : list value :=
  match l with
  | [] => seen
  | x :: l' =>
      if existsb (unique_eq x) seen then unique_from seen l'
      else unique_from (seen ++ [x]) l'
  end.

Definition unique (l : list value) : list value := unique_from [] l.

(** [x] put into a sorted list, after the entries that are not above it; a
    comparison that raises stops the sort. *)
Fixpoint insert_sorted (x : value) (l : list value) : result (list value) :=
  match l with
  | [] => Ok [x]
  | y :: l' =>
      b ← py_lt x y;
      if (b : bool) then Ok (x :: y :: l')
      else (l'' ← insert_sorted x l'; Ok (y :: l''))
  end.

(** [sorted(l)], by insertion from the left: the sorted list when the values
    compare consistently, and some arrangement of the values otherwise (NaN is
    below nothing and above nothing), which need not be the one of Python. *)
Definition sorted (l : list value) : result (list value) :=
  foldl (fun acc x => acc' ← acc; insert_sorted x acc') (Ok []) l.

(** [sorted(data_df['id'].unique())] *)
Definition unique_ids (data_df : DataFrame) : result (list value) :=
  col ← df_column data_df "id";
  sorted (unique col).

(** ** The controller *)

Section Controller.
Context {py : PyBuiltins} {env : Environment}.

Definition DATA_DIR : string := "data".
Definition TEMPLATES_DIR : string := "templates".
Definition OUTPUT_DIR : string := "output".

Definition print_menu_header (title : string) : M unit :=
  print (MsgMenuHeader title).

Definition print_menu (items : list string) : M unit :=
  print (MsgMenu items).

(** [get_choice], by recursion on what is typed: the loop ends at the first
    number within the bounds, at Ctrl-C, or at the end of the input.  The
    result lists the messages printed and the events left. *)
Fixpoint get_choice_on (max_value : Z) (keys : list key_event)
  : list message * result Z * list key_event :=
  match keys with
  | [] => ([], Raise EOFError, [])
  | CtrlC :: keys' => ([MsgCancelled], Raise (SystemExit 0), keys')
  | Line choice :: keys' =>
      match int_of_str choice with
      | Some choice_num =>
          if (1 <=? choice_num) && (choice_num <=? max_value)
          then ([], Ok choice_num, keys')
          else
            let '(out, r, k) := get_choice_on max_value keys' in
            (MsgOutOfRange max_value :: out, r, k)
      | None =>
          let '(out, r, k) := get_choice_on max_value keys' in
          (MsgNotANumber :: out, r, k)
      end
  end.

Definition get_choice (max_value : Z) : M Z := fun w =>
  let '(out, r, k) := get_choice_on max_value (keyboard w) in
  (r, set_keyboard k (set_console (fun c => c ++ out) w)).

Definition get_csv_files : M (list Path) :=
  match glob_csv with
  | [] => print MsgNoCsvFiles;; raise (SystemExit 1)
  | csv_files => ret csv_files
  end.

Definition get_html_templates : M (list Path) :=
  match glob_html with
  | [] => print MsgNoTemplates;; raise (SystemExit 1)
  | html_files => ret html_files
  end.

Definition load_csv_data (csv_path : Path) : M (option DataFrame) :=
  match read_csv csv_path with
  | Some df => ret (Some df)
  | None => print (MsgCsvError (name csv_path));; ret None
  end.

Definition read_html_template (template_path : Path) : M (option string) :=
  match read_text template_path with
  | Some text => ret (Some text)
  | None => print (MsgTemplateError (name template_path));; ret None
  end.

(** The [try] block of [generate_pdf]. *)
Definition write_output (html_content output_path : string) : M unit :=
  if USE_WEASYPRINT then
    match write_pdf html_content output_path with
    | WeasyWritten pdf =>
        fun w => (Ok tt, set_files (<[output_path := pdf]>) w)
    | WeasyRaised e None => raise e
    | WeasyRaised e (Some part) =>
        fun w => (Raise e, set_files (<[output_path := part]>) w)
    end
  else if USE_XHTML2PDF then
    if open_wb output_path then
      (* the file exists and is empty from here on *)
      (fun w => (Ok tt, set_files (<[output_path := ""]>) w));;
      match CreatePDF html_content with
      | PisaReturned written err =>
          (fun w => (Ok tt, set_files (<[output_path := written]>) w));;
          if err =? 0 then ret tt else raise (Exception "xhtml2pdf")
      | PisaRaised e written =>
          fun w => (Raise e, set_files (<[output_path := written]>) w)
      end
    else raise OSError
  else raise (Exception "no library").

Definition generate_pdf (html_content output_path : string) : M bool := fun w =>
  match write_output html_content output_path w with
  | (Ok _, w') => (print (MsgPdfCreated output_path);; ret true) w'
  | (Raise e, w') =>
      if is_Exception e
      then (print (MsgPdfError e);; ret false) w'
      else (Raise e, w')
  end.

Definition open_pdf (pdf_path : string) : M unit :=
  if start_viewer pdf_path then ret tt else print MsgViewerError.

(** [xs[i - 1]] for a choice [i] *)
Definition item {A} (xs : list A) (i : Z) : result A :=
  if 1 <=? i then
    match xs !! Z.to_nat (i - 1) with
    | Some x => Ok x
    | None => Raise IndexError
    end
  else Raise IndexError.

Definition output_filename (selected_template selected_csv : Path) (selected_id : value)
  : string :=
  stem selected_template +:+ "_" +:+ stem selected_csv +:+ "_id" +:+
  py_str selected_id +:+ ".pdf".

(** [OUTPUT_DIR / filename], as text: the path of a file name that holds no
    separator; [pathlib] may give one path to two names that hold some. *)
Definition output_path (filename : string) : string :=
  OUTPUT_DIR +:+ "/" +:+ filename.

(** The body of the loop of the batch mode; the state is
    [(created_files, errors)]. *)
Definition batch_body (selected_template : Path) (template_html : string)
    (selected_csv : Path) (data_df : DataFrame) (count : Z)
    (st : list string * list string) (idx : Z) (selected_id : value)
  : M (list string * list string) :=
  let '(created_files, errors) := st in
  print (MsgBatchItem idx count selected_id);;
  do rendered_html <- lift (render_template selected_template template_html data_df selected_id);
  match rendered_html with
  | PrintedNone msg =>
      print msg;;
      print (MsgMark false);;
      ret (created_files, errors ++ ["ID " +:+ py_str selected_id])
  | Html rendered_html =>
      let filename := output_filename selected_template selected_csv selected_id in
      do ok <- generate_pdf rendered_html (output_path filename);
      if ok then
        print (MsgMark true);;
        ret (created_files ++ [filename], errors)
      else
        print (MsgMark false);;
        ret (created_files, errors ++ ["ID " +:+ py_str selected_id])
  end.

Fixpoint batch_loop (selected_template : Path) (template_html : string)
    (selected_csv : Path) (data_df : DataFrame) (count : Z)
    (st : list string * list string) (idx : Z) (ids : list value)
  : M (list string * list string) :=
  match ids with
  | [] => ret st
  | selected_id :: ids' =>
      do st' <- batch_body selected_template template_html selected_csv data_df
                  count st idx selected_id;
      batch_loop selected_template template_html selected_csv data_df count
        st' (idx + 1) ids'
  end.

(** Mode 2 of [main]. *)
Definition batch_mode (selected_template : Path) (template_html : string)
    (selected_csv : Path) (data_df : DataFrame) (unique_ids : list value)
  : M unit :=
  let count := Z.of_nat (length unique_ids) in
  print (MsgBatchStart count);;
  do st <- batch_loop selected_template template_html selected_csv data_df count
             ([], []) 1 unique_ids;
  let '(created_files, errors) := st in
  print (MsgCreated (Z.of_nat (length created_files)) created_files);;
  (match errors with
   | [] => ret tt
   | _ => print (MsgErrors (Z.of_nat (length errors)) errors)
   end);;
  print MsgSavedIn.

(** Mode 1 of [main], after the identifier is chosen. *)
Definition single_mode (selected_template : Path) (template_html : string)
    (selected_csv : Path) (data_df : DataFrame) (selected_id : value)
  : M unit :=
  print (MsgGenerating selected_id);;
  do rendered_html <- lift (render_template selected_template template_html data_df selected_id);
  match rendered_html with
  | PrintedNone msg => print msg
  | Html rendered_html =>
      let filename := output_filename selected_template selected_csv selected_id in
      do ok <- generate_pdf rendered_html (output_path filename);
      if ok then
        print MsgOpening;;
        open_pdf (output_path filename);;
        print (MsgDone filename)
      else print MsgFailed
  end.

Definition make_directory (directory : string) : M unit := fun w =>
  if existsb (String.eqb directory) (dirs w) then (Ok tt, w)
  else print (MsgDirCreated directory) (set_dirs (fun d => d ++ [directory]) w).

(** The line of the menu of identifiers. *)
Definition id_menu_item (data_df : DataFrame) (id_val : value) : result string :=
  group ← df_where_eq data_df "id" id_val;
  Ok ("ID: " +:+ py_str id_val +:+ " (" +:+ str_of_Z (df_len group) +:+ ")").

Definition main : M unit :=
  make_directory DATA_DIR;;
  make_directory TEMPLATES_DIR;;
  make_directory OUTPUT_DIR;;
  print MsgStart;;
  (* step 1: the template *)
  do html_templates <- get_html_templates;
  print_menu_header "templates";;
  print_menu (map name html_templates);;
  do template_choice <- get_choice (Z.of_nat (length html_templates));
  do selected_template <- lift (item html_templates template_choice);
  print (MsgLoadingTemplate (name selected_template));;
  do template_html <- read_html_template selected_template;
  match template_html with
  | None => ret tt
  | Some template_html =>
  (* step 2: the data file *)
  do csv_files <- get_csv_files;
  print_menu_header "data files";;
  print_menu (map name csv_files);;
  do csv_choice <- get_choice (Z.of_nat (length csv_files));
  do selected_csv <- lift (item csv_files csv_choice);
  print (MsgLoadingData (name selected_csv));;
  do data_df <- load_csv_data selected_csv;
  match data_df with
  | None => ret tt
  | Some data_df =>
  (* step 3: the mode *)
  print_menu_header "mode";;
  print_menu ["one PDF for one ID"; "a PDF for every ID"];;
  do mode_choice <- get_choice 2;
  do unique_ids <- lift (unique_ids data_df);
  if mode_choice =? 1 then
    print_menu_header ("IDs of " +:+ name selected_csv);;
    do items <- lift (mapM (id_menu_item data_df) unique_ids);
    print_menu items;;
    do id_choice <- get_choice (Z.of_nat (length unique_ids));
    do selected_id <- lift (item unique_ids id_choice);
    single_mode selected_template template_html selected_csv data_df selected_id
  else
    batch_mode selected_template template_html selected_csv data_df unique_ids
  end end.

(** The [__main__] guard: the exit status of the process. *)
Definition run : world -> Z * world := fun w =>
  match main w with
  | (Ok _, w') => (0, w')
  | (Raise KeyboardInterrupt, w') =>
      (0, set_console (fun c => c ++ [MsgCancelled]) w')
  | (Raise (SystemExit code), w') => (code, w')
  | (Raise e, w') =>
      (1, set_console (fun c => c ++ [MsgError e]) w')
  end.

End Controller.

(** ** The conversions of the Python runtime on ASCII text

    An instance of [PyBuiltins] to run the model: [int] and [float] read
    ASCII decimal text, [str] prints the shortest decimal text that reads back
    as the same float.  The theorems below hold for every instance. *)

Module AsciiBuiltins.

Definition is_space (c : ascii) : bool :=
  Ascii.eqb c " " || ascii_in (ascii_of_nat 9) (ascii_of_nat 13) c.

Fixpoint drop_while (p : ascii -> bool) (l : list ascii) : list ascii :=
  match l with
  | c :: l' => if p c then drop_while p l' else l
  | [] => []
  end.

(** [s.strip()] *)
Definition strip (l : list ascii) : list ascii :=
  rev (drop_while is_space (rev (drop_while is_space l))).

Definition lower (c : ascii) : ascii :=
  if ascii_in "A" "Z" c then ascii_of_nat (nat_of_ascii c + 32) else c.

Definition digit_value (c : ascii) : Z := Z.of_nat (nat_of_ascii c) - 48.

(** A run of digits, single underscores allowed between two digits: the
    digits read and the text after them. *)
Fixpoint digits_from (after_digit : bool) (l : list ascii) : list ascii * list ascii :=
  match l with
  | c :: l' =>
      if is_digit c then
        let '(ds, r) := digits_from true l' in (c :: ds, r)
      else if after_digit && Ascii.eqb c "_" then
        match l' with
        | c' :: _ =>
            if is_digit c' then digits_from false l' else ([], l)
        | [] => ([], l)
        end
      else ([], l)
  | [] => ([], [])
  end.

Definition digits (l : list ascii) : list ascii * list ascii := digits_from false l.

Definition number_of (ds : list ascii) : Z :=
  foldl (fun n c => 10 * n + digit_value c) 0 ds.

Definition sign_of (l : list ascii) : bool * list ascii :=
  match l with
  | "-"%char :: l' => (true, l')
  | "+"%char :: l' => (false, l')
  | _ => (false, l)
  end.

(** [int(s)] *)
Definition ascii_int (s : string) : option Z :=
  let '(neg, l) := sign_of (strip (list_ascii_of_string s)) in
  match digits l with
  | ((_ :: _) as ds, []) => Some (if neg then - number_of ds else number_of ds)
  | _ => None
  end.

(** The binary64 number nearest to [n / d], for positive [n] and [d]. *)
Definition float_of_ratio (neg : bool) (n d : Z) : float :=
  let k := Z.max 0 (55 + Z.log2 d + 1 - Z.log2 n) in
  let q := (n * 2 ^ k) / d in
  let r := (n * 2 ^ k) mod d in
  let loc := if r =? 0 then loc_Exact else loc_Inexact (2 * r ?= d) in
  binary_round_aux 53 1024 neg q (- k) loc.

(** The binary64 number nearest to [m * 10^e]. *)
Definition float_of_decimal (neg : bool) (m e : Z) : float :=
  if m =? 0 then S754_zero neg
  else if 0 <=? e then float_of_ratio neg (m * 10 ^ e) 1
  else float_of_ratio neg m (10 ^ (- e)).

(** The exponent part: [e], a sign and digits; no exponent part reads as 0. *)
Definition exponent_of (l : list ascii) : option Z :=
  match l with
  | [] => Some 0
  | c :: l' =>
      if Ascii.eqb (lower c) "e" then
        let '(neg, l'') := sign_of l' in
        match digits l'' with
        | ((_ :: _) as ds, []) => Some (if neg then - number_of ds else number_of ds)
        | _ => None
        end
      else None
  end.

(** [float(s)] *)
Definition ascii_float (s : string) : option float :=
  let '(neg, l) := sign_of (strip (list_ascii_of_string s)) in
  let word := string_of_list_ascii (map lower l) in
  if String.eqb word "inf" || String.eqb word "infinity" then Some (S754_infinity neg)
  else if String.eqb word "nan" then Some nan
  else
    let '(ip, l1) := digits l in
    let '(fp, l2) :=
      match l1 with
      | "."%char :: l1' => digits l1'
      | _ => ([], l1)
      end in
    match ip ++ fp with
    | [] => None
    | ds =>
        match exponent_of l2 with
        | Some e => Some (float_of_decimal neg (number_of ds) (e - Z.of_nat (length fp)))
        | None => None
        end
    end.

(** The decimal digits of a positive integer, as a count. *)
Definition decimal_length (n : Z) : Z := Z.of_nat (String.length (str_of_Z n)).

(** [floor (log10 (n / d))] for positive [n] and [d]. *)
Definition log10_floor (n d : Z) : Z :=
  let k := decimal_length n - decimal_length d in
  (* 10^(k-1) <= n/d < 10^(k+1) *)
  if 0 <=? k
  then (if d * 10 ^ k <=? n then k else k - 1)
  else (if d <=? n * 10 ^ (- k) then k else k - 1).

(** The interval of the reals that round to the float [m * 2^e], as fractions
    over the common denominator [den]: [(low, high, den, closed)]. *)
Definition rounding_interval (m e : Z) : Z * Z * Z * bool :=
  let boundary := (m =? 2 ^ 52) && (-1074 <? e) in
  let e' := if boundary then e - 2 else e - 1 in
  let m' := if boundary then 4 * m else 2 * m in
  let lo := m' - 1 in
  let hi := if boundary then m' + 2 else m' + 1 in
  let closed := Z.even m in
  if 0 <=? e' then (lo * 2 ^ e', hi * 2 ^ e', 1, closed)
  else (lo, hi, 2 ^ (- e'), closed).

(** Whether [c * 10^p] lies in the interval. *)
Definition in_interval (iv : Z * Z * Z * bool) (c p : Z) : bool :=
  let '(lo, hi, den, closed) := iv in
  let '(cn, cd) := if 0 <=? p then (c * 10 ^ p, 1) else (c, 10 ^ (- p)) in
  (* lo/den < cn/cd < hi/den *)
  if closed
  then (lo * cd <=? cn * den) && (cn * den <=? hi * cd)
  else (lo * cd <? cn * den) && (cn * den <? hi * cd).

(** The candidates with [n] digits around [num/den]: below and above; the one
    in the interval nearest to the value, if any. *)
Definition shortest_with (iv : Z * Z * Z * bool) (num den k n : Z) : option (Z * Z) :=
  let p := k - n + 1 in
  let '(sn, sd) := if 0 <=? p then (num, den * 10 ^ p) else (num * 10 ^ (- p), den) in
  let lo := sn / sd in
  let r := sn mod sd in
  let hi := lo + 1 in
  let lo_ok := (0 <? lo) && in_interval iv lo p in
  let hi_ok := in_interval iv hi p in
  let nearer_lo := (2 * r <? sd) || ((2 * r =? sd) && Z.even lo) in
  if lo_ok && (nearer_lo || negb hi_ok) then Some (lo, p)
  else if hi_ok then Some (hi, p)
  else None.

Fixpoint shortest_from (fuel : nat) (iv : Z * Z * Z * bool) (num den k n : Z) : Z * Z :=
  match fuel with
  | O => (num / den, 0)
  | S fuel' =>
      match shortest_with iv num den k n with
      | Some r => r
      | None => shortest_from fuel' iv num den k (n + 1)
      end
  end.

Fixpoint strip_zeros (fuel : nat) (c p : Z) : Z * Z :=
  match fuel with
  | O => (c, p)
  | S fuel' => if (c mod 10 =? 0) && (0 <? c) then strip_zeros fuel' (c / 10) (p + 1) else (c, p)
  end.

Definition zeros (n : Z) : string := string_of_list_ascii (repeat "0"%char (Z.to_nat n)).

(** [repr] of the positive float [m * 2^e]. *)
Definition repr_finite (m e : Z) : string :=
  let '(num, den) := if 0 <=? e then (m * 2 ^ e, 1) else (m, 2 ^ (- e)) in
  let k := log10_floor num den in
  let '(c0, p0) := shortest_from 17 (rounding_interval m e) num den k 1 in
  let '(c, p) := strip_zeros 20 c0 p0 in
  let ds := str_of_Z c in
  let n := Z.of_nat (String.length ds) in
  let decpt := n + p in
  if (decpt <=? -4) || (16 <? decpt) then
    let x := decpt - 1 in
    let mant :=
      match ds with
      | String d "" => String d ""
      | String d rest => String d (String "." rest)
      | "" => ""
      end in
    mant +:+ "e" +:+ (if x <? 0 then "-" else "+") +:+
    (if Z.abs x <? 10 then "0" else "") +:+ str_of_Z (Z.abs x)
  else if decpt <=? 0 then "0." +:+ zeros (- decpt) +:+ ds
  else if n <=? decpt then ds +:+ zeros (decpt - n) +:+ ".0"
  else substring 0 (Z.to_nat decpt) ds +:+ "." +:+
       substring (Z.to_nat decpt) (Z.to_nat (n - decpt)) ds.

(** [str(x)] *)
Definition ascii_str (x : float) : string :=
  match x with
  | S754_nan => "nan"
  | S754_infinity s => sign_str s +:+ "inf"
  | S754_zero s => sign_str s +:+ "0.0"
  | S754_finite s m e => sign_str s +:+ repr_finite (Z.pos m) e
  end.

#[export] Instance builtins : PyBuiltins := {|
  float_of_str := ascii_float;
  str_of_float := ascii_str;
  int_of_str := ascii_int
|}.

End AsciiBuiltins.

(** ** Vocabulary of the statements *)

(** The fields each strategy reads. *)
Definition item_fields : list string :=
  ["work_name"; "quantity"; "unit"; "unit_price"; "total"].
Definition header_fields : list string :=
  ["act_number"; "act_date"; "contract_number"; "object_address"; "client"; "contractor"].
Definition certificate_fields : list string :=
  ["student_name"; "course_name"; "cert_date"].

Definition has_column (df : DataFrame) (field : string) : bool :=
  existsb (String.eqb field) (columns df).

Definition has_columns (df : DataFrame) (fields : list string) : bool :=
  forallb (has_column df) fields.

(** The first field of [fields] that the table lacks. *)
Definition first_missing (df : DataFrame) (fields : list string) : option string :=
  List.find (fun f => negb (has_column df f)) fields.

(** The value of a field of a row that has it. *)
Definition field (r : Row) (name : string) : value :=
  default (VFloat nan) (assoc name r).

(** The float sum of a list, from the left, starting at 0. *)
Definition float_sum (xs : list float) : float := foldl fadd fzero xs.

(** Text with exactly two decimal places: an optional minus sign, one or more
    digits, a point, two digits. *)
Definition two_decimals (s : string) : Prop :=
  exists (sign : bool) (int_part : string) (d1 d2 : ascii),
    s = sign_str sign +:+ int_part +:+ String "." (String d1 (String d2 "")) /\
    int_part <> "" /\
    forallb is_digit (list_ascii_of_string int_part) = true /\
    is_digit d1 = true /\ is_digit d2 = true.

(** The placeholder a token names, if it is one. *)
Definition placeholder (t : token) : option string :=
  match t with
  | TNamed n | TBraced n => Some n
  | _ => None
  end.

(** Whether [safe_substitute] replaces the token: a placeholder the mapping
    supplies, or the escape. *)
Definition replaced (mapping : gmap string string) (t : token) : bool :=
  match t with
  | TNamed n | TBraced n => bool_decide (is_Some (mapping !! n))
  | TEscaped => true
  | TLit _ | TInvalid => false
  end.

Definition is_no_data (m : message) : bool :=
  match m with MsgNoDataForId _ => true | _ => false end.

Section Vocabulary.
Context {py : PyBuiltins}.

(** The table row the item at position [k] (from 0) stands for. *)
Definition table_row (k : nat) (row : Row) : string :=
  position_row (str_of_Z (Z.of_nat k + 1))
    (py_str (field row "work_name")) (py_str (field row "quantity"))
    (py_str (field row "unit")) (py_str (field row "unit_price"))
    (py_str (field row "total")).

(** The total of a row as [float] reads it; [None] when [float] raises. *)
Definition parsed_total (row : Row) : option float :=
  match (v ← getattr row "total"; py_float v) with
  | Ok x => Some x
  | Raise _ => None
  end.

(** The header values of an act, from a row. *)
Definition act_header (positions_rows total_amount : string) (r : Row)
  : gmap string string :=
  act_mapping (py_str (field r "act_number")) (py_str (field r "act_date"))
    (py_str (field r "contract_number")) (py_str (field r "object_address"))
    positions_rows total_amount
    (py_str (field r "client")) (py_str (field r "contractor")).

Context {env : Environment}.

(** What the [try] block of [generate_pdf] comes to; the world only receives
    the file. *)
Definition emission (html_content output_path : string) : result unit :=
  (write_output html_content output_path
     {| files := ∅; dirs := []; console := []; keyboard := [] |}).1.

(** What the batch loop makes of one identifier: [Ok true] a file created,
    [Ok false] a failure recorded, [Raise] the loop left. *)
Definition id_outcome (selected_template : Path) (template_html : string)
    (selected_csv : Path) (data_df : DataFrame) (selected_id : value) : result bool :=
  r ← render_template selected_template template_html data_df selected_id;
  match r with
  | PrintedNone _ => Ok false
  | Html html =>
      match emission html
              (output_path (output_filename selected_template selected_csv selected_id)) with
      | Ok _ => Ok true
      | Raise e => if is_Exception e then Ok false else Raise e
      end
  end.

Definition succeeded (selected_template : Path) (template_html : string)
    (selected_csv : Path) (data_df : DataFrame) (selected_id : value) : bool :=
  match id_outcome selected_template template_html selected_csv data_df selected_id with
  | Ok true => true
  | _ => false
  end.

End Vocabulary.

(** A row that has the fields. *)
Definition row_has (fields : list string) (r : Row) : Prop :=
  Forall (fun f => is_Some (assoc f r)) fields.

(** Two results agree up to the document: both are documents, or the same
    message, or the same exception. *)
Definition same_outcome (r r' : result rendered) : Prop :=
  match r, r' with
  | Ok (Html _), Ok (Html _) => True
  | Ok (PrintedNone m), Ok (PrintedNone m') => m = m'
  | Raise e, Raise e' => e = e'
  | _, _ => False
  end.

(** [out] printed after what the console shows. *)
Definition say (out : list message) (w : world) : world :=
  set_console (fun c => c ++ out) w.

(** The file at [path] replaced, if there is new content. *)
Definition put_file (path : string) (content : option string) (w : world) : world :=
  match content with
  | Some c => set_files (<[path := c]>) w
  | None => w
  end.

(** [m] prints messages that satisfy [P] only, and a value it returns
    satisfies [Q]. *)
Definition produces {A} (P : message -> Prop) (Q : A -> Prop) (m : M A) : Prop :=
  forall w,
    (exists out, console (m w).2 = console w ++ out /\ Forall P out) /\
    (forall a, (m w).1 = Ok a -> Q a).

(** The messages of the prompt. *)
Definition prompt_message (m : message) : Prop :=
  match m with
  | MsgOutOfRange _ | MsgNotANumber | MsgCancelled => True
  | _ => False
  end.

Section BatchVocabulary.
Context {py : PyBuiltins} {env : Environment}.

(** The totals accumulated over rows, as the loop does it. *)
Definition add_total (n : number) (row : Row) : number :=
  match parsed_total row with
  | Some x => number_add n x
  | None => n
  end.

(** The grand total of a group. *)
Definition act_total (positions_df : DataFrame) : float :=
  float_sum (omap parsed_total (itertuples positions_df)).

(** A line that [get_choice] does not accept. *)
Definition rejected (max_value : Z) (k : key_event) : bool :=
  match k with
  | Line choice =>
      match int_of_str choice with
      | Some n => negb ((1 <=? n) && (n <=? max_value))
      | None => true
      end
  | CtrlC => false
  end.

(** What the emitter leaves at the path, when it changes it. *)
Definition written (html_content output_path : string) : option string :=
  if USE_WEASYPRINT then
    match write_pdf html_content output_path with
    | WeasyWritten pdf => Some pdf
    | WeasyRaised _ part => part
    end
  else if USE_XHTML2PDF then
    if open_wb output_path then
      match CreatePDF html_content with
      | PisaReturned content _ | PisaRaised _ content => Some content
      end
    else None
  else None.



Variables (selected_template : Path) (template_html : string)
          (selected_csv : Path) (data_df : DataFrame).

(** The entry of [errors] for an identifier. *)
Definition label (selected_id : value) : string := "ID " +:+ py_str selected_id.

Definition path_of (selected_id : value) : string :=
  output_path (output_filename selected_template selected_csv selected_id).

(** What the loop prints for an identifier. *)
Definition batch_messages (count idx : Z) (selected_id : value) : list message :=
  MsgBatchItem idx count selected_id ::
  match render_template selected_template template_html data_df selected_id with
  | Raise _ => []
  | Ok (PrintedNone msg) => [msg; MsgMark false]
  | Ok (Html html) =>
      match emission html (path_of selected_id) with
      | Ok _ => [MsgPdfCreated (path_of selected_id); MsgMark true]
      | Raise e => if is_Exception e then [MsgPdfError e; MsgMark false] else []
      end
  end.

(** What the loop leaves at the path of an identifier, when it changes it. *)
Definition batch_file (selected_id : value) : option string :=
  match render_template selected_template template_html data_df selected_id with
  | Ok (Html html) => written html (path_of selected_id)
  | _ => None
  end.

(** The state of the loop after an identifier. *)
Definition batch_state (st : list string * list string) (selected_id : value)
  : result (list string * list string) :=
  b ← id_outcome selected_template template_html selected_csv data_df selected_id;
  Ok (if b : bool
      then (st.1 ++ [output_filename selected_template selected_csv selected_id], st.2)
      else (st.1, st.2 ++ [label selected_id])).

(** Whether the loop goes on after the identifier. *)
Definition stays (selected_id : value) : bool :=
  match id_outcome selected_template template_html selected_csv data_df selected_id with
  | Ok _ => true
  | Raise _ => false
  end.

(** The identifiers with a file created, and the others. *)
Definition good (ids : list value) : list value :=
  List.filter (succeeded selected_template template_html selected_csv data_df) ids.

Definition bad (ids : list value) : list value :=
  List.filter
    (fun id => negb (succeeded selected_template template_html selected_csv data_df id))
    ids.

End BatchVocabulary.

(** ** Example data *)

Module Examples.
Import AsciiBuiltins.

Definition act_columns : list string :=
  ["id"; "act_number"; "act_date"; "contract_number"; "object_address";
   "client"; "contractor"; "work_name"; "quantity"; "unit"; "unit_price"; "total"].

Definition act_cells (id : value) (work_name : string) (quantity : Z) (unit : string)
    (unit_price total : value) : list value :=
  [id; VInt 7; VStr "2024-01-15"; VStr "C-12"; VStr "1 Main St";
   VStr "ACME"; VStr "Builders"; VStr work_name; VInt quantity; VStr unit;
   unit_price; total].

(** The example of the specification: two items of the act 1. *)
Definition paint_df : DataFrame := {|
  columns := act_columns;
  rows := [act_cells (VInt 1) "Paint wall" 2 "m2" (VInt 10) (VInt 20);
           act_cells (VInt 1) "Seal" 1 "pc" (VInt 5) (VInt 5)]
|}.

(** A total that [float] rejects: the column holds text. *)
Definition text_total_df : DataFrame := {|
  columns := act_columns;
  rows := [act_cells (VInt 1) "Paint wall" 2 "m2" (VInt 10) (VStr "20.50");
           act_cells (VInt 1) "Seal" 1 "pc" (VInt 5) (VStr "5 USD")]
|}.

(** An empty cell in a numeric [total] column reads as NaN. *)
Definition empty_total_df : DataFrame := {|
  columns := act_columns;
  rows := [act_cells (VInt 1) "Paint wall" 2 "m2" (VInt 10) (VFloat (float_of_Z 20));
           act_cells (VInt 1) "Seal" 1 "pc" (VInt 5) (VFloat nan)]
|}.

(** Two acts, 1 and 2. *)
Definition two_acts_df : DataFrame := {|
  columns := act_columns;
  rows := [act_cells (VInt 2) "Seal" 1 "pc" (VInt 5) (VInt 5);
           act_cells (VInt 1) "Paint wall" 2 "m2" (VInt 10) (VInt 20)]
|}.

(** The same table without the column [client]. *)
Definition no_client_df : DataFrame := {|
  columns := ["id"; "act_number"; "act_date"; "contract_number"; "object_address";
              "contractor"; "work_name"; "quantity"; "unit"; "unit_price"; "total"];
  rows := [[VInt 2; VInt 8; VStr "2024-01-16"; VStr "C-13"; VStr "2 Main St";
            VStr "Builders"; VStr "Seal"; VInt 1; VStr "pc"; VInt 5; VInt 5];
           [VInt 1; VInt 7; VStr "2024-01-15"; VStr "C-12"; VStr "1 Main St";
            VStr "Builders"; VStr "Paint wall"; VInt 2; VStr "m2"; VInt 10; VInt 20]]
|}.

(** An empty cell in the [id] column: the column is a float column and the
    cell reads as NaN. *)
Definition empty_id_df : DataFrame := {|
  columns := act_columns;
  rows := [act_cells (VFloat (float_of_Z 1)) "Paint wall" 2 "m2" (VInt 10) (VInt 20);
           act_cells (VFloat nan) "Seal" 1 "pc" (VInt 5) (VInt 5)]
|}.

Definition certificates_df : DataFrame := {|
  columns := ["id"; "student_name"; "course_name"; "cert_date"];
  rows := [[VInt 1; VStr "Ada"; VStr "Logic"; VStr "2024-02-01"];
           [VInt 2; VStr "Alan"; VStr "Computing"; VStr "2024-02-02"]]
|}.

Definition act_html : Path := {| name := "act.html"; stem := "act" |}.
Definition certificate_html : Path := {| name := "certificate.html"; stem := "certificate" |}.
Definition invoice_html : Path := {| name := "invoice.html"; stem := "invoice" |}.
Definition data_csv : Path := {| name := "data.csv"; stem := "data" |}.

Definition act_template : string :=
  "<h1>Act $act_number of ${act_date}</h1><table>$positions_rows</table><b>$total_amount $$</b> $stamp".

(** An environment in which WeasyPrint is installed and writes its output. *)
Definition weasy_env (template : Path) (data_df : DataFrame) : Environment := {|
  USE_WEASYPRINT := true;
  USE_XHTML2PDF := false;
  write_pdf := fun html _ => WeasyWritten ("%PDF " +:+ html);
  open_wb := fun _ => true;
  CreatePDF := fun html => PisaReturned ("%PDF " +:+ html) 0;
  glob_csv := [data_csv];
  glob_html := [template];
  read_csv := fun _ => Some data_df;
  read_text := fun _ => Some act_template;
  start_viewer := fun _ => true
|}.

(** An environment with xhtml2pdf only, which reports an error on the
    documents that mention [Seal] and writes the others. *)
Definition mentions_seal (html : string) : bool :=
  match index 0 "Seal" html with Some _ => true | None => false end.

Definition pisa_env (template : Path) (data_df : DataFrame) : Environment := {|
  USE_WEASYPRINT := false;
  USE_XHTML2PDF := true;
  write_pdf := fun html _ => WeasyWritten ("%PDF " +:+ html);
  open_wb := fun _ => true;
  CreatePDF := fun html =>
    if mentions_seal html then PisaReturned "%PDF" 1
    else PisaReturned ("%PDF " +:+ html) 0;
  glob_csv := [data_csv];
  glob_html := [template];
  read_csv := fun _ => Some data_df;
  read_text := fun _ => Some act_template;
  start_viewer := fun _ => true
|}.

(** A first run: no directory, no file, and the keys typed. *)
Definition start (keys : list key_event) : world :=
  {| files := ∅; dirs := []; console := []; keyboard := keys |}.

End Examples.


(** ** Further vocabulary *)

(** What [get_choice] prints for a line it does not accept. *)
Definition rejection {py : PyBuiltins} (max_value : Z) (k : key_event) : message :=
  match k with
  | Line choice =>
      match int_of_str choice with
      | Some _ => MsgOutOfRange max_value
      | None => MsgNotANumber
      end
  | CtrlC => MsgCancelled
  end.

(** A directory made if it is not there; the message of its creation. *)
Definition with_directory (directory : string) (w : world) : world :=
  if existsb (String.eqb directory) (dirs w) then w
  else say [MsgDirCreated directory] (set_dirs (fun d => d ++ [directory]) w).

(** The world when [main] reaches its first step. *)
Definition prepared (w : world) : world :=
  say [MsgStart]
    (with_directory OUTPUT_DIR (with_directory TEMPLATES_DIR (with_directory DATA_DIR w))).

(** Text without a dollar sign. *)
Definition plain (s : string) : bool :=
  forallb (fun c => negb (Ascii.eqb c "$")) (list_ascii_of_string s).

(** A name that the pattern of [Template] takes as an identifier. *)
Definition is_identifier (name : string) : bool :=
  match list_ascii_of_string name with
  | c :: l => is_id_start c && forallb is_id_char l
  | [] => false
  end.

Definition is_text (v : value) : bool :=
  match v with VStr _ => true | _ => false end.

Definition is_float (v : value) : bool :=
  match v with VFloat _ => true | _ => false end.

(** The [id] of a row of the table. *)
Definition row_id (df : DataFrame) (cells : list value) : value :=
  default (VFloat nan) (assoc "id" (zip_row (columns df) cells)).

(** The keywords of the substitution of an act; those of a certificate are
    [certificate_fields]. *)
Definition act_keywords : list string :=
  header_fields ++ ["positions_rows"; "total_amount"].

(** A token that a render with the keywords [keywords] has to leave as it
    stands in the template: a character outside every match, a lone dollar
    sign, or a placeholder whose name is no keyword. *)
Definition kept (keywords : list string) (t : token) : bool :=
  match t with
  | TNamed n | TBraced n => negb (existsb (String.eqb n) keywords)
  | TLit _ | TInvalid => true
  | TEscaped => false
  end.

(** [html] is made of one piece for each token of the template, in the order
    of the template, and the piece of a token that is kept is the text of the
    token. *)
Definition verbatim (keywords : list string) (template_html html : string) : Prop :=
  exists pieces : list string,
    html = join pieces /\
    Forall2 (fun t piece => kept keywords t = true -> piece = token_text t)
      (tokenize template_html) pieces.

Section RunVocabulary.
Context {py : PyBuiltins} {env : Environment}.

(** A run from [w] that comes to the choice of the identifiers in the world
    [w3], with the batch mode chosen: a template is chosen and read, a data
    file is chosen and read, and the mode 2 is chosen. *)
Definition reaches_batch (w : world) (selected_template : Path) (template_html : string)
    (selected_csv : Path) (data_df : DataFrame) (w3 : world) : Prop :=
  exists (template_choice csv_choice : Z) (w1 w2 : world),
    get_choice (Z.of_nat (length glob_html))
      (say [MsgMenuHeader "templates"; MsgMenu (map name glob_html)] (prepared w))
    = (Ok template_choice, w1) /\
    item glob_html template_choice = Ok selected_template /\
    read_text selected_template = Some template_html /\
    get_choice (Z.of_nat (length glob_csv))
      (say [MsgLoadingTemplate (name selected_template); MsgMenuHeader "data files";
            MsgMenu (map name glob_csv)] w1)
    = (Ok csv_choice, w2) /\
    item glob_csv csv_choice = Ok selected_csv /\
    read_csv selected_csv = Some data_df /\
    get_choice 2
      (say [MsgLoadingData (name selected_csv); MsgMenuHeader "mode";
            MsgMenu ["one PDF for one ID"; "a PDF for every ID"]] w2)
    = (Ok 2, w3).

End RunVocabulary.

(** ** The imports at the top of the script

    An import succeeds, or raises [ImportError], or raises something else.
    The script catches [ImportError] and [OSError] of the first import, and
    [ImportError] of the second one, which is tried only after the first has
    failed. *)
Inductive import_outcome : Type :=
  | Imported
  | ImportError
  | ImportFailed (e : exn).

Inductive import_message : Type :=
  | MsgWeasyUnavailable
  | MsgSearching
  | MsgUsingXhtml2pdf
  | MsgNoAlternative
  | MsgInstallHint.

(** The second import, inside the handler of the first. *)
Definition load_xhtml2pdf (xhtml2pdf : import_outcome)
  : list import_message * result (bool * bool) :=
  match xhtml2pdf with
  | Imported =>
      ([MsgWeasyUnavailable; MsgSearching; MsgUsingXhtml2pdf], Ok (false, true))
  | ImportError =>
      ([MsgWeasyUnavailable; MsgSearching; MsgNoAlternative; MsgInstallHint],
       Raise (SystemExit 1))
  | ImportFailed e => ([MsgWeasyUnavailable; MsgSearching], Raise e)
  end.

(** The imports: what is printed, and the flags
    [(USE_WEASYPRINT, USE_XHTML2PDF)] or the exception that ends the script
    there. *)
Definition load_backends (weasyprint xhtml2pdf : import_outcome)
  : list import_message * result (bool * bool) :=
  match weasyprint with
  | Imported => ([], Ok (true, false))
  | ImportError | ImportFailed OSError => load_xhtml2pdf xhtml2pdf
  | ImportFailed e => ([], Raise e)
  end.

(** ** Further example data *)

Module MoreExamples.
Import AsciiBuiltins Examples.

(** Certificates with a second row for the student 1. *)
Definition repeated_certificates_df : DataFrame := {|
  columns := ["id"; "student_name"; "course_name"; "cert_date"];
  rows := [[VInt 2; VStr "Alan"; VStr "Computing"; VStr "2024-02-02"];
           [VInt 1; VStr "Ada"; VStr "Logic"; VStr "2024-02-01"];
           [VInt 1; VStr "Ada"; VStr "Engines"; VStr "2024-03-01"]]
|}.

(** Identifiers that are text, and an empty cell among them, which reads as
    NaN. *)
Definition text_id_df : DataFrame := {|
  columns := ["id"; "student_name"; "course_name"; "cert_date"];
  rows := [[VStr "A-1"; VStr "Ada"; VStr "Logic"; VStr "2024-02-01"];
           [VFloat nan; VStr "Alan"; VStr "Computing"; VStr "2024-02-02"]]
|}.

(** No template in the templates directory. *)
Definition empty_folder_env : Environment := {|
  USE_WEASYPRINT := true;
  USE_XHTML2PDF := false;
  write_pdf := fun html _ => WeasyWritten ("%PDF " +:+ html);
  open_wb := fun _ => true;
  CreatePDF := fun html => PisaReturned ("%PDF " +:+ html) 0;
  glob_csv := [data_csv];
  glob_html := [];
  read_csv := fun _ => Some two_acts_df;
  read_text := fun _ => Some act_template;
  start_viewer := fun _ => true
|}.

(** Two templates, none of which can be read. *)
Definition unreadable_env : Environment := {|
  USE_WEASYPRINT := true;
  USE_XHTML2PDF := false;
  write_pdf := fun html _ => WeasyWritten ("%PDF " +:+ html);
  open_wb := fun _ => true;
  CreatePDF := fun html => PisaReturned ("%PDF " +:+ html) 0;
  glob_csv := [data_csv];
  glob_html := [act_html; certificate_html];
  read_csv := fun _ => Some two_acts_df;
  read_text := fun _ => None;
  start_viewer := fun _ => true
|}.

End MoreExamples.

(** * Proofs *)

(** ** Strings and results *)

Lemma append_cons (x : ascii) (a b : string) : String x a +:+ b = String x (a +:+ b).
Proof. reflexivity. Qed.

Lemma append_assoc (a b c : string) : (a +:+ b) +:+ c = a +:+ (b +:+ c).
Proof.
  induction a as [|x a IH]; [reflexivity|].
  rewrite !append_cons. f_equal. exact IH.
Qed.

Lemma append_empty_r (a : string) : a +:+ "" = a.
Proof.
  induction a as [|x a IH]; [reflexivity|].
  rewrite append_cons. f_equal. exact IH.
Qed.

Lemma join_app (l k : list string) : join (l ++ k) = join l +:+ join k.
Proof.
  induction l as [|x l IH]; simpl; [done|].
  by rewrite IH, append_assoc.
Qed.

Lemma bind_Ok {A B} (a : A) (f : A -> result B) : (Ok a ≫= f) = f a.
Proof. reflexivity. Qed.

Lemma bind_Raise {A B} (e : exn) (f : A -> result B) : (Raise e ≫= f) = Raise e.
Proof. reflexivity. Qed.

(** ** Rows *)

Lemma assoc_zip_row (cols : list string) (cells : list value) (f : string) :
  existsb (String.eqb f) cols = true -> is_Some (assoc f (zip_row cols cells)).
Proof.
  revert cells; induction cols as [|c cols IH]; intros cells; simpl; [done|].
  rewrite (String.eqb_sym c f).
  destruct (String.eqb f c); simpl; [eauto | apply IH].
Qed.

Lemma assoc_zip_row_None (cols : list string) (cells : list value) (f : string) :
  existsb (String.eqb f) cols = false -> assoc f (zip_row cols cells) = None.
Proof.
  revert cells; induction cols as [|c cols IH]; intros cells; simpl; [done|].
  rewrite (String.eqb_sym c f).
  destruct (String.eqb f c); simpl; [done | apply IH].
Qed.

Lemma getattr_field (r : Row) (f : string) :
  is_Some (assoc f r) -> getattr r f = Ok (field r f).
Proof. intros [v Hv]. unfold getattr, field. by rewrite Hv. Qed.

Lemma getattr_missing (r : Row) (f : string) :
  assoc f r = None -> getattr r f = Raise (AttributeError f).
Proof. intros Hv. unfold getattr. by rewrite Hv. Qed.

Lemma itertuples_have (df : DataFrame) (fields : list string) :
  has_columns df fields = true -> Forall (row_has fields) (itertuples df).
Proof.
  intros Hc. unfold itertuples. apply Forall_fmap, Forall_forall.
  intros cells _. unfold row_has. apply Forall_forall. intros f Hf.
  apply assoc_zip_row.
  unfold has_columns in Hc. rewrite forallb_forall in Hc.
  apply Hc. by apply list_elem_of_In.
Qed.

Section RendererFacts.
Context {py : PyBuiltins}.

Lemma act_loop_body_ok (s : string) (n : number) (k : nat) (row : Row) :
  row_has item_fields row ->
  act_loop_body (s, n) (Z.of_nat k + 1) row
  = Ok (s +:+ table_row k row, add_total n row).
Proof.
  intros Hrow. unfold row_has, item_fields in Hrow.
  repeat match goal with
         | H : Forall _ (_ :: _) |- _ => apply Forall_cons in H; destruct H as [? H]
         end.
  unfold act_loop_body.
  rewrite !getattr_field by assumption.
  rewrite !bind_Ok.
  unfold table_row, add_total, parsed_total.
  rewrite getattr_field by assumption. rewrite bind_Ok.
  destruct (py_float (field row "total")); reflexivity.
Qed.

Lemma act_loop_ok (rs : list Row) : forall (s : string) (n : number) (k : nat),
  Forall (row_has item_fields) rs ->
  act_loop (s, n) (Z.of_nat k + 1) rs
  = Ok (s +:+ join (imap (fun i r => table_row (k + i) r) rs), foldl add_total n rs).
Proof.
  induction rs as [|row rs IH]; intros s n k Hrs; cbn [act_loop].
  - simpl. by rewrite append_empty_r.
  - apply Forall_cons in Hrs. destruct Hrs as [Hrow Hrs].
    rewrite act_loop_body_ok by assumption. rewrite bind_Ok.
    replace (Z.of_nat k + 1 + 1) with (Z.of_nat (S k) + 1) by lia.
    rewrite IH by assumption.
    rewrite append_assoc, imap_cons. unfold join. cbn [foldr foldl].
    rewrite Nat.add_0_r. do 4 f_equal. apply (f_equal (foldr String.append "")).
    apply imap_ext. intros i r _. simpl. f_equal. lia.
Qed.

Lemma add_totals_float (rs : list Row) : forall n : number,
  number_to_float (foldl add_total n rs)
  = foldl fadd (number_to_float n) (omap parsed_total rs).
Proof.
  induction rs as [|row rs IH]; intros n; cbn [foldl omap list_omap]; [done|].
  rewrite IH. unfold add_total.
  destruct (parsed_total row); reflexivity.
Qed.

End RendererFacts.

(** ** The act renderer *)

Section ActFacts.
Context {py : PyBuiltins}.

Lemma row_has_app (fs gs : list string) (r : Row) :
  row_has (fs ++ gs) r -> row_has fs r /\ row_has gs r.
Proof. unfold row_has. apply Forall_app. Qed.

Lemma has_columns_app (df : DataFrame) (fs gs : list string) :
  has_columns df (fs ++ gs) = has_columns df fs && has_columns df gs.
Proof. unfold has_columns. apply forallb_app. Qed.

(** A table with the fields of an act and at least one row renders, and the
    document is the template with these values. *)
Lemma render_act_template_ok (template_html : string) (positions_df : DataFrame) :
  (1 <= length (rows positions_df))%nat ->
  has_columns positions_df (item_fields ++ header_fields) = true ->
  exists first_row,
    iloc0 positions_df = Ok first_row /\
    render_act_template template_html positions_df
    = Ok (Html (safe_substitute
        (act_header
           (join (imap table_row (itertuples positions_df)))
           (format_2f (float_sum (omap parsed_total (itertuples positions_df))))
           first_row)
        template_html)).
Proof.
  intros Hlen Hcols.
  rewrite has_columns_app in Hcols. apply andb_prop in Hcols as [Hitem Hheader].
  unfold render_act_template, df_len.
  destruct (rows positions_df) as [|cells rest] eqn:Hrows; [simpl in Hlen; lia|].
  replace (Z.of_nat (length (cells :: rest)) =? 0) with false
    by (symmetry; apply Z.eqb_neq; simpl; lia).
  exists (zip_row (columns positions_df) cells). split.
  { unfold iloc0. by rewrite Hrows. }
  unfold iloc0. rewrite Hrows, bind_Ok.
  pose proof (act_loop_ok (itertuples positions_df) "" (NInt 0) 0
                (itertuples_have _ _ Hitem)) as Hloop.
  change (Z.of_nat 0 + 1) with 1 in Hloop. rewrite Hloop, bind_Ok.
  assert (Hrow : row_has header_fields (zip_row (columns positions_df) cells)).
  { pose proof (itertuples_have _ _ Hheader) as Hall.
    unfold itertuples in Hall. rewrite Hrows in Hall.
    simpl in Hall. by apply Forall_cons in Hall as [? _]. }
  unfold row_has, header_fields in Hrow.
  repeat match goal with
         | H : Forall _ (_ :: _) |- _ => apply Forall_cons in H; destruct H as [? H]
         end.
  rewrite !getattr_field by assumption. rewrite !bind_Ok.
  unfold act_header, format_2f_number, float_sum.
  rewrite add_totals_float. reflexivity.
Qed.

End ActFacts.

(** ** The format with two decimals *)

Lemma is_digit_digit_char (d : Z) : 0 <= d <= 9 -> is_digit (digit_char d) = true.
Proof.
  intros Hd.
  assert (d = 0 \/ d = 1 \/ d = 2 \/ d = 3 \/ d = 4 \/ d = 5 \/ d = 6 \/
          d = 7 \/ d = 8 \/ d = 9) as Hcases by lia.
  repeat destruct Hcases as [-> | Hcases]; try reflexivity.
  subst d. reflexivity.
Qed.

Lemma string_of_uint_digits (d : Decimal.uint) :
  forallb is_digit (list_ascii_of_string (NilEmpty.string_of_uint d)) = true.
Proof. induction d; simpl; [reflexivity | assumption ..]. Qed.

Lemma str_of_Z_digits (z : Z) :
  0 <= z ->
  str_of_Z z <> "" /\ forallb is_digit (list_ascii_of_string (str_of_Z z)) = true.
Proof.
  intros Hz. unfold str_of_Z.
  destruct z as [|p|p]; [split; [discriminate | reflexivity] | | lia].
  unfold Z.to_int, NilZero.string_of_int, NilZero.string_of_uint.
  destruct (Pos.to_uint p) eqn:Hp; simpl;
    (split; [discriminate | try reflexivity; apply string_of_uint_digits]).
Qed.

Lemma round_half_even_nonneg (m e : Z) : 0 <= m -> 0 <= round_half_even m e.
Proof.
  intros Hm. unfold round_half_even.
  destruct (0 <=? e) eqn:He.
  - apply Z.leb_le in He. apply Z.mul_nonneg_nonneg; [done|].
    apply Z.pow_nonneg. lia.
  - assert (0 < 2 ^ (- e)) as Hd by (apply Z.pow_pos_nonneg; lia).
    assert (0 <= m / 2 ^ (- e)) as Hq by (apply Z.div_pos; lia).
    repeat case_match; lia.
Qed.

Lemma hundredths_two_decimals (sign : bool) (n : Z) :
  0 <= n -> two_decimals (sign_str sign +:+ hundredths n).
Proof.
  intros Hn. unfold hundredths.
  assert (0 <= n / 100) as Hq by (apply Z.div_pos; lia).
  destruct (str_of_Z_digits _ Hq) as [Hne Hdig].
  exists sign, (str_of_Z (n / 100)), (digit_char (n mod 100 / 10)), (digit_char (n mod 10)).
  repeat split; try assumption.
  - apply is_digit_digit_char.
    pose proof (Z.mod_pos_bound n 100 ltac:(lia)) as Hr.
    split; [apply Z.div_pos; lia|].
    assert (n mod 100 / 10 < 10); [apply Z.div_lt_upper_bound; lia | lia].
  - apply is_digit_digit_char.
    pose proof (Z.mod_pos_bound n 10 ltac:(lia)). lia.
Qed.

(** A finite number prints with exactly two decimals. *)
Lemma format_2f_finite (x : float) : is_finite x = true -> two_decimals (format_2f x).
Proof.
  destruct x as [s|s| |s m e]; simpl; try discriminate; intros _.
  - exists s, "0", "0"%char, "0"%char. repeat split; discriminate.
  - apply hundredths_two_decimals, round_half_even_nonneg. lia.
Qed.

(** The others print as a word. *)
Lemma format_2f_not_finite (x : float) :
  is_finite x = false ->
  format_2f x = "nan" \/ format_2f x = "inf" \/ format_2f x = "-inf".
Proof.
  destruct x as [s|s| |s m e]; simpl; try discriminate; intros _.
  - destruct s; auto.
  - auto.
Qed.

(** ** Templates *)

Lemma string_of_list_ascii_app (l k : list ascii) :
  string_of_list_ascii (l ++ k) = string_of_list_ascii l +:+ string_of_list_ascii k.
Proof.
  induction l as [|c l IH]; [reflexivity|].
  simpl. rewrite append_cons. f_equal. exact IH.
Qed.

Lemma take_while_prefix (p : ascii -> bool) (l : list ascii) :
  take (length (take_while p l)) l = take_while p l.
Proof.
  induction l as [|c l IH]; simpl; [reflexivity|].
  destruct (p c); simpl; [by rewrite IH | reflexivity].
Qed.

Lemma take_succ_app (l : list ascii) (x : ascii) (tail : list ascii) :
  take (S (length l)) (l ++ x :: tail) = l ++ [x].
Proof. induction l as [|c l IH]; simpl; [reflexivity | by rewrite IH]. Qed.

Lemma ident_at_prefix (l : list ascii) :
  take (length (ident_at l)) l = ident_at l.
Proof.
  destruct l as [|c l]; simpl; [reflexivity|].
  destruct (is_id_start c); simpl; [by rewrite take_while_prefix | reflexivity].
Qed.

Lemma ident_at_length (l : list ascii) : (length (ident_at l) <= length l)%nat.
Proof.
  rewrite <- (ident_at_prefix l) at 1. rewrite length_take. lia.
Qed.

(** The match at a delimiter lies within the text and spells its token. *)
Lemma match_delimiter_text (rest : list ascii) (t : token) (n : nat) :
  match_delimiter rest = (t, n) ->
  (n <= length rest)%nat /\
  token_text t = "$" +:+ string_of_list_ascii (take n rest).
Proof.
  unfold match_delimiter.
  assert (Hnamed : forall id,
    ident_at rest = id ->
    (length id <= length rest)%nat /\
    token_text (TNamed (string_of_list_ascii id))
    = "$" +:+ string_of_list_ascii (take (length id) rest)).
  { intros id <-. split; [apply ident_at_length|].
    by rewrite ident_at_prefix. }
  assert (Hinvalid : (TInvalid, 0%nat) = (t, n) ->
    (n <= length rest)%nat /\
    token_text t = "$" +:+ string_of_list_ascii (take n rest)).
  { intros Heq. inversion Heq; subst. split; [lia | reflexivity]. }
  assert (Hbraced : forall r,
    rest = "{"%char :: r ->
    match ident_at r with
    | [] => (TInvalid, 0%nat)
    | (_ :: _) as id =>
        match drop (length id) r with
        | "}"%char :: _ => (TBraced (string_of_list_ascii id), S (S (length id)))
        | _ => (TInvalid, 0%nat)
        end
    end = (t, n) ->
    (n <= length rest)%nat /\
    token_text t = "$" +:+ string_of_list_ascii (take n rest)).
  { intros r Hrest.
    destruct (ident_at r) as [|c id] eqn:Hid; [exact Hinvalid|].
    cbv zeta.
    destruct (drop (length (c :: id)) r) as [|b tail] eqn:Hdrop; [exact Hinvalid|].
    destruct (Ascii.eqb_spec b "}") as [->|Hne].
    - intros Hb. inversion Hb; subst; clear Hb.
      pose proof (take_drop (length (c :: id)) r) as Hr.
      rewrite Hdrop in Hr. rewrite <- Hid, ident_at_prefix, Hid in Hr.
      split.
      + rewrite <- Hr. simpl. rewrite length_app. simpl. lia.
      + rewrite <- Hr. cbn [length app take].
        rewrite take_succ_app. cbn [string_of_list_ascii token_text].
        rewrite string_of_list_ascii_app. reflexivity.
    - destruct b as [[] [] [] [] [] [] [] []]; try exact Hinvalid.
      by destruct Hne. }
  intros Hm.
  destruct rest as [|c rest'].
  - by apply Hinvalid.
  - destruct (Ascii.eqb_spec c "$") as [->|Hne].
    + inversion Hm; subst. split; [simpl; lia | reflexivity].
    + assert (Hm' :
        match ident_at (c :: rest') with
        | [] =>
            match c :: rest' with
            | "{"%char :: r =>
                match ident_at r with
                | [] => (TInvalid, 0%nat)
                | (_ :: _) as id =>
                    match drop (length id) r with
                    | "}"%char :: _ =>
                        (TBraced (string_of_list_ascii id), S (S (length id)))
                    | _ => (TInvalid, 0%nat)
                    end
                end
            | _ => (TInvalid, 0%nat)
            end
        | (_ :: _) as id => (TNamed (string_of_list_ascii id), length id)
        end = (t, n)).
      { destruct c as [[] [] [] [] [] [] [] []]; try exact Hm. by destruct Hne. }
      clear Hm.
      destruct (ident_at (c :: rest')) as [|i id] eqn:Hid.
      * destruct (Ascii.eqb_spec c "{") as [->|Hne'].
        -- by apply (Hbraced rest').
        -- destruct c as [[] [] [] [] [] [] [] []];
             first [ by apply Hinvalid | by destruct Hne' ].
      * cbv zeta in Hm'. injection Hm' as <- <-.
        exact (Hnamed (i :: id) eq_refl).
Qed.

Lemma scan_text (l : list ascii) : forall skip : nat,
  (skip <= length l)%nat ->
  join (map token_text (scan skip l)) = string_of_list_ascii (drop skip l).
Proof.
  induction l as [|c l IH]; intros skip Hskip.
  - by destruct skip.
  - destruct skip as [|k]; cbn [scan].
    + destruct (Ascii.eqb_spec c "$") as [->|Hne].
      * destruct (match_delimiter l) as [t n] eqn:Hm.
        apply match_delimiter_text in Hm as [Hn Ht].
        cbn [map join foldr]. fold (join (map token_text (scan n l))).
        rewrite IH by assumption. rewrite Ht, append_assoc.
        rewrite <- string_of_list_ascii_app, take_drop. reflexivity.
      * cbn [map join foldr]. fold (join (map token_text (scan 0 l))).
        rewrite IH by lia. reflexivity.
    + simpl in Hskip. rewrite IH by lia. reflexivity.
Qed.

(** The tokens of a template spell the template. *)
Lemma tokenize_text (template : string) :
  join (map token_text (tokenize template)) = template.
Proof.
  unfold tokenize. rewrite scan_text by lia.
  apply string_of_list_ascii_of_string.
Qed.

(** [safe_substitute] replaces the supplied placeholders and the escapes, and
    nothing else. *)
Lemma safe_substitute_replaced (mapping : gmap string string) (template : string) :
  safe_substitute mapping template
  = join (map (fun t => if replaced mapping t then convert mapping t else token_text t)
              (tokenize template)).
Proof.
  unfold safe_substitute. f_equal. apply map_ext. intros t.
  destruct t as [c| |n|n|]; try reflexivity; unfold replaced, convert;
    destruct (mapping !! n) as [v|] eqn:Hn.
  - by rewrite bool_decide_eq_true_2 by eauto.
  - by rewrite bool_decide_eq_false_2 by (by intros [? ?]).
  - by rewrite bool_decide_eq_true_2 by eauto.
  - by rewrite bool_decide_eq_false_2 by (by intros [? ?]).
Qed.

(** ** Identifiers *)

Lemma feqb_refl (x : float) : is_nan x = false -> feqb x x = true.
Proof.
  unfold feqb, SFeqb, SFcompare.
  destruct x as [s|s| |s m e]; simpl; try done.
  - by destruct s.
  - intros _. rewrite Z.compare_refl.
    change (Pos.compare_cont Eq m m) with (Pos.compare m m).
    rewrite Pos.compare_refl. by destruct s.
Qed.

(** A value that is not NaN equals itself. *)
Lemma py_eq_refl (v : value) : value_is_nan v = false -> py_eq v v = true.
Proof.
  destruct v as [z|f|s]; simpl.
  - intros _. apply Z.eqb_refl.
  - apply feqb_refl.
  - intros _. apply String.eqb_refl.
Qed.







(** ** Missing fields *)

Lemma find_app {A} (p : A -> bool) (l k : list A) :
  List.find p (l ++ k)
  = match List.find p l with Some x => Some x | None => List.find p k end.
Proof.
  induction l as [|x l IH]; simpl; [reflexivity|].
  destruct (p x); [reflexivity | exact IH].
Qed.

Lemma first_missing_none (df : DataFrame) (fields : list string) :
  first_missing df fields = None <-> has_columns df fields = true.
Proof.
  unfold first_missing, has_columns.
  induction fields as [|f fields IH]; simpl; [done|].
  destruct (has_column df f); simpl; [exact IH | done].
Qed.

Lemma first_missing_some (df : DataFrame) (fields : list string) :
  has_columns df fields = false -> exists f, first_missing df fields = Some f.
Proof.
  intros Hc. destruct (first_missing df fields) as [f|] eqn:Hf; [eauto|].
  apply first_missing_none in Hf. congruence.
Qed.

(** Reading fields one after the other stops at the first the table lacks. *)
Lemma getattrs_zip_row (df : DataFrame) (cells : list value) (fields : list string) :
  mapM (getattr (zip_row (columns df) cells)) fields
  = match first_missing df fields with
    | Some f => Raise (AttributeError f)
    | None => Ok (map (field (zip_row (columns df) cells)) fields)
    end.
Proof.
  unfold first_missing.
  induction fields as [|f fields IH]; [reflexivity|].
  cbn [mapM List.find map]. unfold has_column at 1.
  destruct (existsb (String.eqb f) (columns df)) eqn:Hf; cbn [negb].
  - rewrite getattr_field by (by apply assoc_zip_row).
    rewrite bind_Ok, IH.
    by destruct (List.find _ fields).
  - rewrite getattr_missing by (by apply assoc_zip_row_None). reflexivity.
Qed.

Section MissingFields.
Context {py : PyBuiltins}.

Lemma act_loop_body_getattrs (s : string) (n : number) (idx : Z) (row : Row) :
  act_loop_body (s, n) idx row
  = (vals ← mapM (getattr row) item_fields;
     Ok (s +:+ position_row (str_of_Z idx)
                 (py_str (field row "work_name")) (py_str (field row "quantity"))
                 (py_str (field row "unit")) (py_str (field row "unit_price"))
                 (py_str (field row "total")),
         add_total n row)).
Proof.
  unfold act_loop_body, item_fields. cbn [mapM].
  unfold add_total, parsed_total, getattr, field.
  destruct (assoc "work_name" row); [|reflexivity].
  destruct (assoc "quantity" row); [|reflexivity].
  destruct (assoc "unit" row); [|reflexivity].
  destruct (assoc "unit_price" row); [|reflexivity].
  destruct (assoc "total" row); [|reflexivity].
  simpl. by destruct (py_float _).
Qed.

Lemma act_loop_missing (df : DataFrame) (cells : list value) (rest : list Row)
    (st : string * number) (idx : Z) (f : string) :
  first_missing df item_fields = Some f ->
  act_loop st idx (zip_row (columns df) cells :: rest) = Raise (AttributeError f).
Proof.
  intros Hf. destruct st as [s n]. cbn [act_loop].
  by rewrite act_loop_body_getattrs, getattrs_zip_row, Hf.
Qed.

Lemma header_getattrs {A} (r : Row)
    (k : value -> value -> value -> value -> value -> value -> result A) :
  (act_number ← getattr r "act_number";
   act_date ← getattr r "act_date";
   contract_number ← getattr r "contract_number";
   object_address ← getattr r "object_address";
   client ← getattr r "client";
   contractor ← getattr r "contractor";
   k act_number act_date contract_number object_address client contractor)
  = (vals ← mapM (getattr r) header_fields;
     k (field r "act_number") (field r "act_date") (field r "contract_number")
       (field r "object_address") (field r "client") (field r "contractor")).
Proof.
  unfold header_fields. cbn [mapM]. unfold getattr, field.
  destruct (assoc "act_number" r); [|reflexivity].
  destruct (assoc "act_date" r); [|reflexivity].
  destruct (assoc "contract_number" r); [|reflexivity].
  destruct (assoc "object_address" r); [|reflexivity].
  destruct (assoc "client" r); [|reflexivity].
  destruct (assoc "contractor" r); reflexivity.
Qed.

(** A table with a row but without a field of the act makes the renderer
    raise, at the first field it lacks. *)
Lemma render_act_template_missing (template_html : string) (positions_df : DataFrame)
    (f : string) :
  (1 <= length (rows positions_df))%nat ->
  first_missing positions_df (item_fields ++ header_fields) = Some f ->
  render_act_template template_html positions_df = Raise (AttributeError f).
Proof.
  intros Hlen Hf. unfold first_missing in Hf. rewrite find_app in Hf.
  fold (first_missing positions_df item_fields) in Hf.
  fold (first_missing positions_df header_fields) in Hf.
  unfold render_act_template, df_len.
  destruct (rows positions_df) as [|cells rest] eqn:Hrows; [simpl in Hlen; lia|].
  replace (Z.of_nat (length (cells :: rest)) =? 0) with false
    by (symmetry; apply Z.eqb_neq; simpl; lia).
  unfold iloc0. rewrite Hrows, bind_Ok.
  destruct (first_missing positions_df item_fields) as [f'|] eqn:Hitem.
  - injection Hf as ->. unfold itertuples. rewrite Hrows. cbn [map].
    by rewrite (act_loop_missing _ _ _ _ _ _ Hitem).
  - apply first_missing_none in Hitem.
    pose proof (act_loop_ok (itertuples positions_df) "" (NInt 0) 0
                  (itertuples_have _ _ Hitem)) as Hloop.
    change (Z.of_nat 0 + 1) with 1 in Hloop. rewrite Hloop, bind_Ok.
    rewrite header_getattrs, getattrs_zip_row, Hf. reflexivity.
Qed.

Lemma render_certificate_template_cases (template_html : string) (df : DataFrame)
    (cells : list value) :
  render_certificate_template template_html (zip_row (columns df) cells)
  = match first_missing df certificate_fields with
    | Some f => Raise (AttributeError f)
    | None =>
        let r := zip_row (columns df) cells in
        Ok (Html (safe_substitute
          (certificate_mapping (py_str (field r "student_name"))
             (py_str (field r "course_name")) (py_str (field r "cert_date")))
          template_html))
    end.
Proof.
  transitivity
    (vals ← mapM (getattr (zip_row (columns df) cells)) certificate_fields;
     let r := zip_row (columns df) cells in
     Ok (Html (safe_substitute
       (certificate_mapping (py_str (field r "student_name"))
          (py_str (field r "course_name")) (py_str (field r "cert_date")))
       template_html))).
  - unfold render_certificate_template, certificate_fields. cbn [mapM].
    unfold getattr, field.
    destruct (assoc "student_name" _); [|reflexivity].
    destruct (assoc "course_name" _); [|reflexivity].
    destruct (assoc "cert_date" _); reflexivity.
  - rewrite getattrs_zip_row. by destruct (first_missing df certificate_fields).
Qed.

(** A rendered act had a row and every field. *)
Lemma render_act_template_html (template_html : string) (positions_df : DataFrame)
    (html : string) :
  render_act_template template_html positions_df = Ok (Html html) ->
  (1 <= length (rows positions_df))%nat /\
  has_columns positions_df (item_fields ++ header_fields) = true.
Proof.
  intros Hr.
  assert (Hlen : (1 <= length (rows positions_df))%nat).
  { unfold render_act_template, df_len in Hr.
    destruct (rows positions_df); [done | simpl; lia]. }
  split; [done|].
  destruct (has_columns positions_df (item_fields ++ header_fields)) eqn:Hc; [done|].
  apply first_missing_some in Hc as [f Hf].
  by rewrite (render_act_template_missing _ _ _ Hlen Hf) in Hr.
Qed.

(** The only message of the act renderer. *)
Lemma render_act_template_message (template_html : string) (positions_df : DataFrame)
    (msg : message) :
  render_act_template template_html positions_df = Ok (PrintedNone msg) ->
  msg = MsgNoActData /\ rows positions_df = [].
Proof.
  unfold render_act_template, df_len.
  destruct (rows positions_df) as [|cells rest] eqn:Hrows.
  - simpl. intros Hr. by injection Hr as <-.
  - replace (Z.of_nat (length (cells :: rest)) =? 0) with false
      by (symmetry; apply Z.eqb_neq; simpl; lia).
    intros Hr.
    destruct (first_missing positions_df (item_fields ++ header_fields)) as [f|] eqn:Hf.
    + pose proof (render_act_template_missing template_html positions_df f) as Hm.
      unfold render_act_template, df_len in Hm. rewrite Hrows in Hm.
      replace (Z.of_nat (length (cells :: rest)) =? 0) with false in Hm
        by (symmetry; apply Z.eqb_neq; simpl; lia).
      rewrite Hm in Hr; [done | simpl; lia | done].
    + apply first_missing_none in Hf.
      destruct (render_act_template_ok template_html positions_df) as [r [_ Hok]];
        [rewrite Hrows; simpl; lia | done |].
      unfold render_act_template, df_len in Hok. rewrite Hrows in Hok.
      replace (Z.of_nat (length (cells :: rest)) =? 0) with false in Hok
        by (symmetry; apply Z.eqb_neq; simpl; lia).
      rewrite Hok in Hr. done.
Qed.

End MissingFields.

(** ** Choosing a strategy *)

Section TemplateFacts.
Context {py : PyBuiltins}.

Lemma select_rows_none {A} (f : A -> bool) (l : list A) : forall rs,
  forallb (fun v => negb (f v)) l = true -> select_rows (map f l) rs = [].
Proof.
  induction l as [|x l IH]; intros rs Hl; [reflexivity|].
  simpl in Hl. apply andb_prop in Hl as [Hx Hl].
  destruct rs as [|r rs]; [reflexivity|]. simpl.
  apply negb_true_iff in Hx. rewrite Hx. by apply IH.
Qed.

(** No row with the identifier: the message of the missing data. *)
Lemma render_template_no_data (template_path : Path) (template_html : string)
    (data_df : DataFrame) (selected_id : value) (col : list value) :
  df_column data_df "id" = Ok col ->
  forallb (fun v => negb (py_eq v selected_id)) col = true ->
  render_template template_path template_html data_df selected_id
  = Ok (PrintedNone (MsgNoDataForId selected_id)).
Proof.
  intros Hcol Hnone. unfold render_template, df_where_eq.
  rewrite Hcol, !bind_Ok. unfold df_len, df_mask. cbn [rows].
  by rewrite (select_rows_none (fun v => py_eq v selected_id)).
Qed.

(** A row with the identifier: the strategy of the template name. *)
Lemma render_template_group (template_path : Path) (template_html : string)
    (data_df : DataFrame) (selected_id : value) (g : DataFrame) :
  df_where_eq data_df "id" selected_id = Ok g ->
  (1 <= length (rows g))%nat ->
  render_template template_path template_html data_df selected_id
  = if String.eqb (stem template_path) "act" then render_act_template template_html g
    else if String.eqb (stem template_path) "certificate" then
      first_row ← iloc0 g; render_certificate_template template_html first_row
    else Ok (PrintedNone (MsgUnknownTemplate (stem template_path))).
Proof.
  intros Hg Hlen. unfold render_template. rewrite Hg, bind_Ok.
  replace (df_len g =? 0) with false; [reflexivity|].
  symmetry. apply Z.eqb_neq. unfold df_len. lia.
Qed.

Lemma render_template_empty (template_path : Path) (template_html : string)
    (data_df : DataFrame) (selected_id : value) (g : DataFrame) :
  df_where_eq data_df "id" selected_id = Ok g ->
  rows g = [] ->
  render_template template_path template_html data_df selected_id
  = Ok (PrintedNone (MsgNoDataForId selected_id)).
Proof.
  intros Hg Hrows. unfold render_template. rewrite Hg, bind_Ok.
  unfold df_len. by rewrite Hrows.
Qed.

Lemma df_where_eq_columns (df g : DataFrame) (x : value) :
  df_where_eq df "id" x = Ok g -> columns g = columns df.
Proof.
  unfold df_where_eq. destruct (df_column df "id"); [|done].
  rewrite bind_Ok. by intros [= <-].
Qed.

(** The message of the missing data is printed for an empty group only, and
    for the identifier asked for. *)
Lemma render_template_message (template_path : Path) (template_html : string)
    (data_df : DataFrame) (selected_id : value) (msg : message) :
  render_template template_path template_html data_df selected_id
  = Ok (PrintedNone msg) ->
  is_no_data msg = true ->
  msg = MsgNoDataForId selected_id /\
  exists g, df_where_eq data_df "id" selected_id = Ok g /\ rows g = [].
Proof.
  intros Hr Hmsg. unfold render_template in Hr.
  destruct (df_where_eq data_df "id" selected_id) as [g|e] eqn:Hg; [|done].
  rewrite bind_Ok in Hr. unfold df_len in Hr.
  destruct (rows g) as [|cells rest] eqn:Hrows.
  - simpl in Hr. injection Hr as <-. eauto.
  - replace (Z.of_nat (length (cells :: rest)) =? 0) with false in Hr
      by (symmetry; apply Z.eqb_neq; simpl; lia).
    destruct (String.eqb (stem template_path) "act").
    + apply render_act_template_message in Hr as [-> _]. done.
    + destruct (String.eqb (stem template_path) "certificate").
      * unfold iloc0 in Hr. rewrite Hrows, bind_Ok in Hr.
        rewrite render_certificate_template_cases in Hr.
        by destruct (first_missing g certificate_fields).
      * injection Hr as <-. done.
Qed.

(** A rendered document had a group with a row and with every field of its
    strategy. *)
Lemma render_template_html (template_path : Path) (template_html : string)
    (data_df : DataFrame) (selected_id : value) (html : string) :
  render_template template_path template_html data_df selected_id = Ok (Html html) ->
  exists g,
    df_where_eq data_df "id" selected_id = Ok g /\
    (1 <= length (rows g))%nat /\
    (stem template_path = "act" /\
       has_columns g (item_fields ++ header_fields) = true \/
     stem template_path = "certificate" /\
       has_columns g certificate_fields = true).
Proof.
  intros Hr. unfold render_template in Hr.
  destruct (df_where_eq data_df "id" selected_id) as [g|e] eqn:Hg; [|done].
  rewrite bind_Ok in Hr. unfold df_len in Hr.
  exists g. split; [done|].
  destruct (rows g) as [|cells rest] eqn:Hrows; [done|].
  replace (Z.of_nat (length (cells :: rest)) =? 0) with false in Hr
    by (symmetry; apply Z.eqb_neq; simpl; lia).
  split; [simpl; lia|].
  destruct (String.eqb_spec (stem template_path) "act") as [Hact|_].
  - left. split; [done|]. by apply render_act_template_html in Hr as [_ ?].
  - destruct (String.eqb_spec (stem template_path) "certificate") as [Hcert|_]; [|done].
    right. split; [done|].
    unfold iloc0 in Hr. rewrite Hrows, bind_Ok in Hr.
    rewrite render_certificate_template_cases in Hr.
    destruct (first_missing g certificate_fields) eqn:Hf; [done|].
    by apply first_missing_none.
Qed.

End TemplateFacts.

(** ** The PDF emitter *)

Lemma say_say (a b : list message) (w : world) : say b (say a w) = say (a ++ b) w.
Proof. destruct w. unfold say, set_console. simpl. by rewrite app_assoc. Qed.

Lemma say_put_file (out : list message) (path : string) (c : option string) (w : world) :
  say out (put_file path c w) = put_file path c (say out w).
Proof. by destruct c. Qed.

Lemma files_say (out : list message) (w : world) : files (say out w) = files w.
Proof. reflexivity. Qed.

Lemma console_say (out : list message) (w : world) :
  console (say out w) = console w ++ out.
Proof. reflexivity. Qed.

Lemma console_put_file (path : string) (c : option string) (w : world) :
  console (put_file path c w) = console w.
Proof. by destruct c. Qed.

Lemma files_put_file_ne (path p : string) (c : option string) (w : world) :
  p <> path -> files (put_file path c w) !! p = files w !! p.
Proof. intros Hp. destruct c; [|done]. simpl. by rewrite lookup_insert_ne. Qed.

Lemma files_put_file_eq (path : string) (c : string) (w : world) :
  files (put_file path (Some c) w) !! path = Some c.
Proof. simpl. by rewrite lookup_insert_eq. Qed.

Lemma files_put_file_grows (path p : string) (c : option string) (w : world) :
  is_Some (files w !! p) -> is_Some (files (put_file path c w) !! p).
Proof.
  intros Hp. destruct c as [c|]; [|done]. simpl.
  destruct (decide (p = path)) as [->|Hne].
  - rewrite lookup_insert_eq. eauto.
  - by rewrite lookup_insert_ne.
Qed.

Lemma bind_run {A B} (m : M A) (k : A -> M B) (w : world) :
  bind m k w
  = match m w with
    | (Ok a, w') => k a w'
    | (Raise e, w') => (Raise e, w')
    end.
Proof. reflexivity. Qed.

Lemma print_run (m : message) (w : world) : print m w = (Ok tt, say [m] w).
Proof. reflexivity. Qed.

Section EmitterFacts.
Context {py : PyBuiltins} {env : Environment}.

Lemma write_output_run (html_content output_path : string) (w : world) :
  write_output html_content output_path w
  = (emission html_content output_path,
     put_file output_path (written html_content output_path) w).
Proof.
  unfold emission, write_output, written.
  destruct USE_WEASYPRINT.
  { destruct (write_pdf html_content output_path) as [pdf|e [part|]]; reflexivity. }
  destruct USE_XHTML2PDF; [|reflexivity].
  destruct (open_wb output_path); [|reflexivity].
  assert (Hput : forall c,
    set_files (<[output_path := c]>) (set_files (<[output_path := ""]>) w)
    = set_files (<[output_path := c]>) w).
  { intros c. destruct w. unfold set_files. simpl. by rewrite insert_insert_eq. }
  destruct (CreatePDF html_content) as [content err|e content];
    rewrite !bind_run; cbn [put_file fst]; rewrite ?bind_run.
  - destruct (err =? 0); cbn; by rewrite Hput.
  - cbn. by rewrite Hput.
Qed.

(** The outcome of the emitter, from the outcome of its [try] block. *)
Lemma generate_pdf_run (html_content output_path : string) (w : world) :
  generate_pdf html_content output_path w
  = let w' := put_file output_path (written html_content output_path) w in
    match emission html_content output_path with
    | Ok _ => (Ok true, say [MsgPdfCreated output_path] w')
    | Raise e =>
        if is_Exception e then (Ok false, say [MsgPdfError e] w') else (Raise e, w')
    end.
Proof.
  unfold generate_pdf. rewrite write_output_run.
  destruct (emission html_content output_path) as [[]|e]; [reflexivity|].
  by destruct (is_Exception e).
Qed.

(** A [try] block that ends normally has written the file. *)
Lemma emission_ok_written (html_content output_path : string) (u : unit) :
  emission html_content output_path = Ok u ->
  is_Some (written html_content output_path).
Proof.
  unfold emission, write_output, written.
  destruct USE_WEASYPRINT.
  { destruct (write_pdf html_content output_path) as [pdf|e [part|]]; cbn; eauto; done. }
  destruct USE_XHTML2PDF; [|done].
  destruct (open_wb output_path); [|done].
  destruct (CreatePDF html_content); eauto.
Qed.

End EmitterFacts.

(** ** The batch *)

Section BatchFacts.
Context {py : PyBuiltins} {env : Environment}.
Variables (selected_template : Path) (template_html : string)
          (selected_csv : Path) (data_df : DataFrame).

Local Abbreviation path' := (path_of selected_template selected_csv).
Local Abbreviation messages' :=
  (batch_messages selected_template template_html selected_csv data_df).
Local Abbreviation file' :=
  (batch_file selected_template template_html selected_csv data_df).
Local Abbreviation state' :=
  (batch_state selected_template template_html selected_csv data_df).
Local Abbreviation good' := (good selected_template template_html selected_csv data_df).
Local Abbreviation bad' := (bad selected_template template_html selected_csv data_df).

Lemma batch_body_run (count : Z) (st : list string * list string) (idx : Z)
    (selected_id : value) (w : world) :
  batch_body selected_template template_html selected_csv data_df count st idx
    selected_id w
  = (state' st selected_id,
     say (messages' count idx selected_id)
       (put_file (path' selected_id) (file' selected_id) w)).
Proof.
  destruct st as [created errors].
  unfold batch_body, batch_state, batch_messages, batch_file, id_outcome, path_of.
  rewrite bind_run, print_run. cbv beta iota. rewrite bind_run. unfold lift.
  destruct (render_template selected_template template_html data_df selected_id)
    as [[html|msg]|e]; cbn [mbind result_bind put_file].
  - rewrite bind_run, generate_pdf_run. cbv zeta.
    rewrite <- say_put_file.
    destruct (emission html _) as [[]|e]; cbn [fst snd].
    + rewrite bind_run, print_run. unfold ret. cbv beta iota.
      rewrite !say_say. reflexivity.
    + destruct (is_Exception e); [|reflexivity].
      rewrite bind_run, print_run. unfold ret. cbv beta iota.
      rewrite !say_say. reflexivity.
  - repeat (rewrite bind_run, print_run; cbv beta iota).
    unfold ret. rewrite !say_say. reflexivity.
  - reflexivity.
Qed.


(** The loop over identifiers none of which leaves it. *)
Lemma batch_loop_run (count : Z) (ids : list value) :
  forall (created errors : list string) (idx : Z) (w : world),
  (forall id, id ∈ ids ->
     exists b, id_outcome selected_template template_html selected_csv data_df id = Ok b) ->
  exists w',
    batch_loop selected_template template_html selected_csv data_df count
      (created, errors) idx ids w
    = (Ok (created ++ map (output_filename selected_template selected_csv) (good' ids),
           errors ++ map label (bad' ids)), w') /\
    console w'
    = console w ++ concat (imap (fun k id => messages' count (idx + Z.of_nat k) id) ids) /\
    (forall p, is_Some (files w !! p) -> is_Some (files w' !! p)) /\
    (forall id, id ∈ good' ids -> is_Some (files w' !! path' id)).
Proof.
  induction ids as [|id ids IH]; intros created errors idx w Hall.
  - exists w. cbn. rewrite !app_nil_r.
    repeat split; [done | intros id Hid; by apply elem_of_nil in Hid].
  - cbn [batch_loop]. rewrite bind_run, batch_body_run.
    destruct (Hall id ltac:(constructor)) as [b Hb].
    unfold batch_state. rewrite Hb, bind_Ok. cbn [fst snd].
    set (w1 := say _ (put_file _ _ w)).
    assert (Hgrow1 : forall p, is_Some (files w !! p) -> is_Some (files w1 !! p)).
    { intros p Hp. unfold w1. rewrite files_say. by apply files_put_file_grows. }
    assert (Hsucc : succeeded selected_template template_html selected_csv data_df id = b).
    { unfold succeeded. rewrite Hb. by destruct b. }
    destruct b.
    + destruct (IH (created ++ [output_filename selected_template selected_csv id])
                  errors (idx + 1) w1) as [w' (Hrun & Hcons & Hgrow & Hgood)].
      { intros id' Hid'. apply Hall. by constructor. }
      exists w'. unfold good, bad in *. cbn [List.filter]. rewrite Hsucc. cbn [negb map].
      split; [by rewrite Hrun, <- app_assoc|].
      split.
      { rewrite Hcons. unfold w1. rewrite console_say, console_put_file.
        rewrite imap_cons. cbn [concat]. rewrite Z.add_0_r, <- app_assoc.
        do 3 f_equal. apply imap_ext. intros k x _. cbn. f_equal. lia. }
      split; [intros p Hp; by apply Hgrow, Hgrow1|].
      intros id' Hid'. apply elem_of_cons in Hid' as [->|Hid']; [|by apply Hgood].
      apply Hgrow. unfold w1. rewrite files_say.
      unfold batch_file. unfold id_outcome in Hb. fold (path' id) in Hb.
      destruct (render_template selected_template template_html data_df id)
        as [[html|msg]|e]; cbn in Hb; try done.
      destruct (emission html (path' id)) as [u|e] eqn:Hemit.
      * destruct (emission_ok_written _ _ _ Hemit) as [c ->].
        rewrite files_put_file_eq. eauto.
      * by destruct (is_Exception e).
    + destruct (IH created (errors ++ [label id]) (idx + 1) w1)
        as [w' (Hrun & Hcons & Hgrow & Hgood)].
      { intros id' Hid'. apply Hall. by constructor. }
      exists w'. unfold good, bad in *. cbn [List.filter]. rewrite Hsucc. cbn [negb map].
      split; [by rewrite Hrun, <- app_assoc|].
      split.
      { rewrite Hcons. unfold w1. rewrite console_say, console_put_file.
        rewrite imap_cons. cbn [concat]. rewrite Z.add_0_r, <- app_assoc.
        do 3 f_equal. apply imap_ext. intros k x _. cbn. f_equal. lia. }
      split; [intros p Hp; by apply Hgrow, Hgrow1|].
      exact Hgood.
Qed.

End BatchFacts.

(** ** What a run prints *)

Section Produces.
Context {P : message -> Prop}.






Lemma produces_weaken {A} (Q Q' : A -> Prop) (m : M A) :
  produces P Q m -> (forall a, Q a -> Q' a) -> produces P Q' m.
Proof.
  intros Hm Hq w. destruct (Hm w) as [Hout Ha].
  split; [exact Hout | intros a Hr; by apply Hq, Ha].
Qed.

End Produces.

Section ControllerFacts.
Context {py : PyBuiltins} {env : Environment}.

Lemma get_choice_on_spec (max_value : Z) (keys : list key_event) :
  Forall prompt_message (get_choice_on max_value keys).1.1 /\
  (forall a, (get_choice_on max_value keys).1.2 = Ok a -> 1 <= a <= max_value).
Proof.
  induction keys as [|k keys [IHout IHa]]; cbn [get_choice_on].
  - split; [constructor | done].
  - destruct k as [choice|].
    + destruct (int_of_str choice) as [n|].
      * destruct ((1 <=? n) && (n <=? max_value)) eqn:Hn.
        -- split; [constructor|]. cbn. intros a [= <-].
           apply andb_prop in Hn as [?%Z.leb_le ?%Z.leb_le]. lia.
        -- destruct (get_choice_on max_value keys) as [[out r] k]. cbn in *.
           split; [by constructor | done].
      * destruct (get_choice_on max_value keys) as [[out r] k]. cbn in *.
        split; [by constructor | done].
    + split; [by repeat constructor | done].
Qed.













End ControllerFacts.

(** * The properties of the specification *)

Section Properties.
Context {py : PyBuiltins} {env : Environment}.


(** C1, amended. An act over a group with a row and the fields of the act
    renders, and the value put in place of [total_amount] is the float sum,
    from the left and starting at 0, of the totals that [float] accepts; a
    total that [float] rejects is left out and the render goes on.  The sum is
    printed with exactly two decimals when it is finite, and as [nan], [inf]
    or [-inf] when it is not. *)
Theorem act_total_amount (template_html : string) (positions_df : DataFrame) :
  (1 <= length (rows positions_df))%nat ->
  has_columns positions_df (item_fields ++ header_fields) = true ->
  (exists (first_row : Row) (positions_rows : string),
     render_act_template template_html positions_df
     = Ok (Html (safe_substitute
         (act_header positions_rows (format_2f (act_total positions_df)) first_row)
         template_html))) /\
  (is_finite (act_total positions_df) = true ->
   two_decimals (format_2f (act_total positions_df))) /\
  (is_finite (act_total positions_df) = false ->
   format_2f (act_total positions_df) = "nan" \/
   format_2f (act_total positions_df) = "inf" \/
   format_2f (act_total positions_df) = "-inf").
Proof.
  intros Hlen Hcols.
  destruct (render_act_template_ok template_html positions_df Hlen Hcols)
    as [first_row [_ Hrender]].
  split; [|split].
  - exists first_row, (join (imap table_row (itertuples positions_df))).
    exact Hrender.
  - apply format_2f_finite.
  - apply format_2f_not_finite.
Qed.

Lemma same_outcome_act (template_html other : string) (positions_df : DataFrame) :
  same_outcome (render_act_template template_html positions_df)
               (render_act_template other positions_df).
Proof.
  unfold render_act_template.
  destruct (df_len positions_df =? 0); [reflexivity|].
  destruct (iloc0 positions_df) as [first_row|e]; [|reflexivity].
  rewrite !bind_Ok.
  destruct (act_loop _ _ _) as [[positions_rows total_amount]|e]; [|reflexivity].
  rewrite !bind_Ok.
  repeat match goal with
         | |- same_outcome (getattr ?r ?f ≫= _) _ =>
             destruct (getattr r f); [rewrite !bind_Ok | reflexivity]
         end.
  exact I.
Qed.

Lemma same_outcome_certificate (template_html other : string) (data_row : Row) :
  same_outcome (render_certificate_template template_html data_row)
               (render_certificate_template other data_row).
Proof.
  unfold render_certificate_template.
  repeat match goal with
         | |- same_outcome (getattr ?r ?f ≫= _) _ =>
             destruct (getattr r f); [rewrite !bind_Ok | reflexivity]
         end.
  exact I.
Qed.

Lemma verbatim_safe_substitute (keywords : list string) (mapping : gmap string string)
    (template_html : string) :
  (forall n, existsb (String.eqb n) keywords = false -> mapping !! n = None) ->
  verbatim keywords template_html (safe_substitute mapping template_html).
Proof.
  intros Hkeys. exists (map (convert mapping) (tokenize template_html)).
  split; [reflexivity|].
  induction (tokenize template_html) as [|t ts IH]; cbn [map]; constructor; [|exact IH].
  destruct t as [c| |n|n|]; cbn [kept convert]; try done;
    intros Hn; apply negb_true_iff in Hn; by rewrite (Hkeys n Hn).
Qed.

Lemma act_mapping_keywords
    (act_number act_date contract_number object_address positions_rows total_amount
     client contractor n : string) :
  existsb (String.eqb n) act_keywords = false ->
  act_mapping act_number act_date contract_number object_address positions_rows
    total_amount client contractor !! n = None.
Proof.
  unfold act_keywords, header_fields. cbn [app existsb]. intros Hn.
  repeat (apply orb_false_elim in Hn as [?%String.eqb_neq Hn]).
  unfold act_mapping. by rewrite !lookup_insert_ne, lookup_empty.
Qed.

Lemma certificate_mapping_keywords (student_name course_name cert_date n : string) :
  existsb (String.eqb n) certificate_fields = false ->
  certificate_mapping student_name course_name cert_date !! n = None.
Proof.
  unfold certificate_fields. cbn [existsb]. intros Hn.
  repeat (apply orb_false_elim in Hn as [?%String.eqb_neq Hn]).
  unfold certificate_mapping. by rewrite !lookup_insert_ne, lookup_empty.
Qed.

Lemma render_act_template_verbatim (template_html : string) (positions_df : DataFrame)
    (html : string) :
  render_act_template template_html positions_df = Ok (Html html) ->
  verbatim act_keywords template_html html.
Proof.
  unfold render_act_template. destruct (df_len positions_df =? 0); [done|].
  destruct (iloc0 positions_df) as [first_row|]; [rewrite bind_Ok | done].
  destruct (act_loop _ _ _) as [[positions_rows total_amount]|]; [rewrite bind_Ok | done].
  repeat match goal with
         | |- (getattr ?r ?f ≫= _) = _ -> _ =>
             destruct (getattr r f); [rewrite bind_Ok | done]
         end.
  intros [= <-]. apply verbatim_safe_substitute. intros n. apply act_mapping_keywords.
Qed.

Lemma render_certificate_template_verbatim (template_html : string) (data_row : Row)
    (html : string) :
  render_certificate_template template_html data_row = Ok (Html html) ->
  verbatim certificate_fields template_html html.
Proof.
  unfold render_certificate_template.
  repeat match goal with
         | |- (getattr ?r ?f ≫= _) = _ -> _ =>
             destruct (getattr r f); [rewrite bind_Ok | done]
         end.
  intros [= <-]. apply verbatim_safe_substitute. intros n.
  apply certificate_mapping_keywords.
Qed.

(** C8. The tokens of a template spell the template, and [safe_substitute]
    replaces only the placeholders that the mapping supplies (and the escape
    [$$]).  A document that a render returns, under either strategy, is made
    of one piece for each token of the template, in the order of the template,
    and the piece of a placeholder [$name] or [${name}] whose name is not
    among the keywords of the strategy is the placeholder as it stands in the
    template; so is the piece of every character outside the placeholders.
    The template has no part in whether the render returns a document, prints
    a message or raises. *)
Theorem missing_placeholders_verbatim (mapping : gmap string string)
    (template_html : string) :
  join (map token_text (tokenize template_html)) = template_html /\
  safe_substitute mapping template_html
  = join (map (fun t => if replaced mapping t then convert mapping t else token_text t)
              (tokenize template_html)) /\
  (forall (positions_df : DataFrame) (html : string),
     render_act_template template_html positions_df = Ok (Html html) ->
     verbatim act_keywords template_html html) /\
  (forall (data_row : Row) (html : string),
     render_certificate_template template_html data_row = Ok (Html html) ->
     verbatim certificate_fields template_html html) /\
  (forall (other : string) (positions_df : DataFrame),
     same_outcome (render_act_template template_html positions_df)
                  (render_act_template other positions_df)) /\
  (forall (other : string) (data_row : Row),
     same_outcome (render_certificate_template template_html data_row)
                  (render_certificate_template other data_row)).
Proof.
  split; [apply tokenize_text|].
  split; [apply safe_substitute_replaced|].
  split; [intros positions_df html; apply render_act_template_verbatim|].
  split; [intros data_row html; apply render_certificate_template_verbatim|].
  split; intros other x; [apply same_outcome_act | apply same_outcome_certificate].
Qed.

(** A render that prints a message and returns nothing writes no file, in
    either mode, and the batch records the identifier as an error. *)
Lemma printed_none_no_file (selected_template : Path) (template_html : string)
    (selected_csv : Path) (data_df : DataFrame) (selected_id : value) (msg : message) :
  render_template selected_template template_html data_df selected_id
  = Ok (PrintedNone msg) ->
  (forall w,
     single_mode selected_template template_html selected_csv data_df selected_id w
     = (Ok tt, say [MsgGenerating selected_id; msg] w)) /\
  (forall count st idx w,
     batch_body selected_template template_html selected_csv data_df count st idx
       selected_id w
     = (Ok (st.1, st.2 ++ [label selected_id]),
        say [MsgBatchItem idx count selected_id; msg; MsgMark false] w)).
Proof.
  intros Hr. split.
  - intros w. unfold single_mode.
    rewrite bind_run, print_run. cbv beta iota.
    rewrite bind_run. unfold lift. rewrite Hr. cbv beta iota.
    rewrite print_run, say_say. reflexivity.
  - intros count st idx w. rewrite batch_body_run.
    unfold batch_state, batch_messages, batch_file, id_outcome. rewrite Hr.
    reflexivity.
Qed.

(** C7. An identifier that equals no entry of the [id] column: the render
    fails with the message of the missing data, whatever the template, and the
    controller writes no file for it, in the one mode and in the other. *)
Theorem absent_id_no_data (selected_template : Path) (template_html : string)
    (selected_csv : Path) (data_df : DataFrame) (selected_id : value)
    (col : list value) :
  df_column data_df "id" = Ok col ->
  forallb (fun v => negb (py_eq v selected_id)) col = true ->
  render_template selected_template template_html data_df selected_id
  = Ok (PrintedNone (MsgNoDataForId selected_id)) /\
  (forall w,
     files (single_mode selected_template template_html selected_csv data_df
              selected_id w).2 = files w) /\
  (forall count st idx w,
     (batch_body selected_template template_html selected_csv data_df count st idx
        selected_id w).1 = Ok (st.1, st.2 ++ [label selected_id]) /\
     files (batch_body selected_template template_html selected_csv data_df count st
              idx selected_id w).2 = files w).
Proof.
  intros Hcol Hnone.
  pose proof (render_template_no_data selected_template template_html data_df
                selected_id col Hcol Hnone) as Hr.
  destruct (printed_none_no_file selected_template template_html selected_csv
              data_df selected_id _ Hr) as [Hsingle Hbatch].
  split; [exact Hr|]. split.
  - intros w. by rewrite Hsingle.
  - intros count st idx w. by rewrite Hbatch.
Qed.

(** C6, amended. A template whose name is neither [act] nor [certificate]:
    the render fails, with the message of the unknown template when a row has
    the identifier and with the message of the missing data when none has (the
    identifier is looked up first); either way the controller writes no file
    for it. *)
Theorem unknown_template_fails (selected_template : Path) (template_html : string)
    (selected_csv : Path) (data_df : DataFrame) (selected_id : value) (g : DataFrame) :
  String.eqb (stem selected_template) "act" = false ->
  String.eqb (stem selected_template) "certificate" = false ->
  df_where_eq data_df "id" selected_id = Ok g ->
  render_template selected_template template_html data_df selected_id
  = Ok (PrintedNone
          match rows g with
          | [] => MsgNoDataForId selected_id
          | _ :: _ => MsgUnknownTemplate (stem selected_template)
          end) /\
  (forall w,
     files (single_mode selected_template template_html selected_csv data_df
              selected_id w).2 = files w) /\
  (forall count st idx w,
     (batch_body selected_template template_html selected_csv data_df count st idx
        selected_id w).1 = Ok (st.1, st.2 ++ [label selected_id]) /\
     files (batch_body selected_template template_html selected_csv data_df count st
              idx selected_id w).2 = files w).
Proof.
  intros Hact Hcert Hg.
  assert (Hr : render_template selected_template template_html data_df selected_id
    = Ok (PrintedNone
            match rows g with
            | [] => MsgNoDataForId selected_id
            | _ :: _ => MsgUnknownTemplate (stem selected_template)
            end)).
  { destruct (rows g) as [|cells rest] eqn:Hrows.
    - by apply (render_template_empty _ _ _ _ g).
    - rewrite (render_template_group _ _ _ _ g Hg) by (rewrite Hrows; simpl; lia).
      by rewrite Hact, Hcert. }
  destruct (printed_none_no_file selected_template template_html selected_csv
              data_df selected_id _ Hr) as [Hsingle Hbatch].
  split; [exact Hr|]. split.
  - intros w. by rewrite Hsingle.
  - intros count st idx w. by rewrite Hbatch.
Qed.

End Properties.

Section ControllerProperties.
Context {py : PyBuiltins} {env : Environment}.

(** C5, amended. A call of the emitter changes no file but the one at the
    destination.  When it reports success the destination holds the complete
    output of the backend.  With xhtml2pdf the destination is opened, hence
    created or emptied, before the conversion: when the backend then reports
    an error the emitter reports failure and the destination keeps what the
    backend wrote.  When no backend is there, or the destination cannot be
    opened, the files are as before. *)
Theorem generate_pdf_file (html_content output_path : string) (w : world) :
  (forall p, p <> output_path ->
     files (generate_pdf html_content output_path w).2 !! p = files w !! p) /\
  ((generate_pdf html_content output_path w).1 = Ok true ->
   exists pdf,
     files (generate_pdf html_content output_path w).2 !! output_path = Some pdf /\
     (USE_WEASYPRINT = true /\ write_pdf html_content output_path = WeasyWritten pdf \/
      USE_WEASYPRINT = false /\ CreatePDF html_content = PisaReturned pdf 0)) /\
  (USE_WEASYPRINT = false -> USE_XHTML2PDF = true -> open_wb output_path = true ->
   forall content err,
     CreatePDF html_content = PisaReturned content err -> err <> 0 ->
     (generate_pdf html_content output_path w).1 = Ok false /\
     files (generate_pdf html_content output_path w).2 !! output_path = Some content) /\
  (USE_WEASYPRINT = false -> USE_XHTML2PDF && open_wb output_path = false ->
   (generate_pdf html_content output_path w).1 = Ok false /\
   files (generate_pdf html_content output_path w).2 = files w).
Proof.
  rewrite generate_pdf_run. cbv zeta.
  split; [|split; [|split]].
  - intros p Hp.
    destruct (emission html_content output_path) as [u|e];
      [|destruct (is_Exception e)]; cbn [snd];
      rewrite ?files_say; by apply files_put_file_ne.
  - unfold emission, written, write_output.
    destruct USE_WEASYPRINT.
    + destruct (write_pdf html_content output_path) as [pdf|e [part|]]; cbn.
      * intros _. exists pdf. rewrite lookup_insert_eq. auto.
      * by destruct (is_Exception e).
      * by destruct (is_Exception e).
    + destruct USE_XHTML2PDF; [|done].
      destruct (open_wb output_path); [|done].
      destruct (CreatePDF html_content) as [content err|e content]; cbn.
      * destruct (Z.eqb_spec err 0) as [->|Hne]; cbn; [|done].
        intros _. exists content. rewrite lookup_insert_eq. auto.
      * by destruct (is_Exception e).
  - intros Hweasy Hpisa Hopen content err Hcreate Herr.
    unfold emission, written, write_output.
    rewrite Hweasy, Hpisa, Hopen, Hcreate. cbn.
    destruct (Z.eqb_spec err 0) as [->|_]; [done|]. cbn.
    by rewrite lookup_insert_eq.
  - intros Hweasy Hclosed.
    unfold emission, written, write_output. rewrite Hweasy.
    destruct USE_XHTML2PDF; [|done].
    cbn in Hclosed. by rewrite Hclosed.
Qed.


Lemma make_directory_run (directory : string) (w : world) :
  make_directory directory w = (Ok tt, with_directory directory w).
Proof.
  unfold make_directory, with_directory.
  by destruct (existsb (String.eqb directory) (dirs w)).
Qed.

Lemma item_bounds {A} (xs : list A) (i : Z) (x : A) :
  item xs i = Ok x -> 1 <= i <= Z.of_nat (length xs).
Proof.
  unfold item. destruct (Z.leb_spec 1 i) as [Hi|]; [|done].
  destruct (xs !! Z.to_nat (i - 1)) as [y|] eqn:Hy; [|done].
  intros _. apply lookup_lt_Some in Hy. lia.
Qed.

(** The loop over a list in two parts. *)
Lemma batch_loop_app (selected_template : Path) (template_html : string)
    (selected_csv : Path) (data_df : DataFrame) (count : Z) (l1 l2 : list value) :
  forall (st : list string * list string) (idx : Z) (w : world),
  batch_loop selected_template template_html selected_csv data_df count st idx
    (l1 ++ l2) w
  = match batch_loop selected_template template_html selected_csv data_df count st idx
            l1 w with
    | (Ok st', w') =>
        batch_loop selected_template template_html selected_csv data_df count st'
          (idx + Z.of_nat (length l1)) l2 w'
    | (Raise e, w') => (Raise e, w')
    end.
Proof.
  induction l1 as [|id l1 IH]; intros st idx w.
  - cbn [app batch_loop length]. unfold ret. by rewrite Z.add_0_r.
  - cbn [app batch_loop]. rewrite !bind_run.
    destruct (batch_body _ _ _ _ _ _ _ _ w) as [[st1|e] w1]; [|reflexivity].
    rewrite IH. cbn [length].
    by replace (idx + 1 + Z.of_nat (length l1)) with (idx + Z.of_nat (S (length l1)))
      by lia.
Qed.

(** The way of a run to the batch. *)
Lemma main_batch (w : world) (selected_template : Path) (template_html : string)
    (selected_csv : Path) (data_df : DataFrame) (w3 : world) (ids : list value) :
  reaches_batch w selected_template template_html selected_csv data_df w3 ->
  unique_ids data_df = Ok ids ->
  main w = batch_mode selected_template template_html selected_csv data_df ids w3.
Proof.
  intros (template_choice & csv_choice & w1 & w2 &
          Hc1 & Ht & Hread & Hc2 & Hc & Hcsv & Hc3) Hids.
  pose proof (item_bounds _ _ _ Ht) as Hbt.
  pose proof (item_bounds _ _ _ Hc) as Hbc.
  unfold main.
  rewrite bind_run, make_directory_run. cbv beta iota.
  rewrite bind_run, make_directory_run. cbv beta iota.
  rewrite bind_run, make_directory_run. cbv beta iota.
  rewrite bind_run, print_run. cbv beta iota.
  fold (prepared w).
  rewrite bind_run. unfold get_html_templates.
  destruct glob_html as [|t ts] eqn:Hglob; [cbn in Hbt; lia|].
  unfold ret at 1. cbv beta iota.
  unfold print_menu_header, print_menu.
  rewrite bind_run, print_run. cbv beta iota.
  rewrite bind_run, print_run. cbv beta iota.
  rewrite say_say. cbn [app].
  rewrite bind_run, Hc1. cbv beta iota.
  rewrite bind_run. unfold lift at 1. rewrite Ht. cbv beta iota.
  rewrite bind_run, print_run. cbv beta iota.
  rewrite bind_run. unfold read_html_template. rewrite Hread.
  unfold ret at 1. cbv beta iota.
  rewrite bind_run. unfold get_csv_files.
  destruct glob_csv as [|c cs] eqn:Hglobc; [cbn in Hbc; lia|].
  unfold ret at 1. cbv beta iota.
  rewrite bind_run, print_run. cbv beta iota.
  rewrite bind_run, print_run. cbv beta iota.
  rewrite !say_say. cbn [app].
  rewrite bind_run, Hc2. cbv beta iota.
  rewrite bind_run. unfold lift at 1. rewrite Hc. cbv beta iota.
  rewrite bind_run, print_run. cbv beta iota.
  rewrite bind_run. unfold load_csv_data. rewrite Hcsv.
  unfold ret at 1. cbv beta iota.
  rewrite bind_run, print_run. cbv beta iota.
  rewrite bind_run, print_run. cbv beta iota.
  rewrite !say_say. cbn [app].
  rewrite bind_run, Hc3. cbv beta iota.
  rewrite bind_run. unfold lift at 1. rewrite Hids. cbv beta iota.
  reflexivity.
Qed.

(** C4, amended. A group that is rendered has at least one row and every
    field its strategy reads.  A group without rows is recorded as a failure
    and the batch goes on with the next identifier, as after every render
    that returns nothing.  A group that has a row but lacks a field makes the
    render raise [AttributeError] for the first field it lacks, and the batch
    passes the exception on: it stops at that identifier, without a file, and
    the identifiers after it are not taken.  A run that comes to the batch
    then ends with the status 1: it leaves what the identifiers before that
    one have made, the line of that identifier and the message of the
    error. *)
Theorem group_failures (selected_template : Path) (template_html : string)
    (selected_csv : Path) (data_df : DataFrame) (selected_id : value) :
  (forall html,
     render_template selected_template template_html data_df selected_id
     = Ok (Html html) ->
     exists g,
       df_where_eq data_df "id" selected_id = Ok g /\
       (1 <= length (rows g))%nat /\
       (stem selected_template = "act" /\
          has_columns g (item_fields ++ header_fields) = true \/
        stem selected_template = "certificate" /\
          has_columns g certificate_fields = true)) /\
  (forall g f,
     df_where_eq data_df "id" selected_id = Ok g ->
     (1 <= length (rows g))%nat ->
     stem selected_template = "act" /\
       first_missing g (item_fields ++ header_fields) = Some f \/
     stem selected_template = "certificate" /\
       first_missing g certificate_fields = Some f ->
     render_template selected_template template_html data_df selected_id
     = Raise (AttributeError f)) /\
  (forall e count st idx rest w,
     render_template selected_template template_html data_df selected_id = Raise e ->
     batch_loop selected_template template_html selected_csv data_df count st idx
       (selected_id :: rest) w
     = (Raise e, say [MsgBatchItem idx count selected_id] w)) /\
  (forall msg count st idx rest w,
     render_template selected_template template_html data_df selected_id
     = Ok (PrintedNone msg) ->
     batch_loop selected_template template_html selected_csv data_df count st idx
       (selected_id :: rest) w
     = batch_loop selected_template template_html selected_csv data_df count
         (st.1, st.2 ++ [label selected_id]) (idx + 1) rest
         (say [MsgBatchItem idx count selected_id; msg; MsgMark false] w)) /\
  (forall g count st idx rest w,
     df_where_eq data_df "id" selected_id = Ok g ->
     rows g = [] ->
     batch_loop selected_template template_html selected_csv data_df count st idx
       (selected_id :: rest) w
     = batch_loop selected_template template_html selected_csv data_df count
         (st.1, st.2 ++ [label selected_id]) (idx + 1) rest
         (say [MsgBatchItem idx count selected_id; MsgNoDataForId selected_id;
               MsgMark false] w)) /\
  (forall w w3 before rest e,
     reaches_batch w selected_template template_html selected_csv data_df w3 ->
     unique_ids data_df = Ok (before ++ selected_id :: rest) ->
     forallb (stays selected_template template_html selected_csv data_df) before = true ->
     render_template selected_template template_html data_df selected_id = Raise e ->
     is_Exception e = true ->
     run w
     = (1, say [MsgBatchItem (Z.of_nat (length before) + 1)
                  (Z.of_nat (length (before ++ selected_id :: rest))) selected_id;
                MsgError e]
             (batch_loop selected_template template_html selected_csv data_df
                (Z.of_nat (length (before ++ selected_id :: rest))) ([], []) 1 before
                (say [MsgBatchStart (Z.of_nat (length (before ++ selected_id :: rest)))]
                   w3)).2)).
Proof.
  assert (Hraise : forall e count st idx rest w,
     render_template selected_template template_html data_df selected_id = Raise e ->
     batch_loop selected_template template_html selected_csv data_df count st idx
       (selected_id :: rest) w
     = (Raise e, say [MsgBatchItem idx count selected_id] w)).
  { intros e count st idx rest w Hr. cbn [batch_loop].
    rewrite bind_run, batch_body_run.
    unfold batch_state, batch_messages, batch_file, id_outcome. rewrite Hr.
    reflexivity. }
  assert (Hnone : forall msg count st idx rest w,
     render_template selected_template template_html data_df selected_id
     = Ok (PrintedNone msg) ->
     batch_loop selected_template template_html selected_csv data_df count st idx
       (selected_id :: rest) w
     = batch_loop selected_template template_html selected_csv data_df count
         (st.1, st.2 ++ [label selected_id]) (idx + 1) rest
         (say [MsgBatchItem idx count selected_id; msg; MsgMark false] w)).
  { intros msg count st idx rest w Hr. cbn [batch_loop].
    rewrite bind_run.
    destruct (printed_none_no_file selected_template template_html selected_csv
                data_df selected_id msg Hr) as [_ Hbatch].
    by rewrite Hbatch. }
  split; [|split; [|split; [|split; [|split]]]].
  - intros html. apply render_template_html.
  - intros g f Hg Hlen Hmissing.
    rewrite (render_template_group _ _ _ _ g Hg Hlen).
    destruct Hmissing as [[-> Hf]|[-> Hf]]; cbn [String.eqb Ascii.eqb Bool.eqb].
    + by apply render_act_template_missing.
    + change ("certificate" =? "act")%string with false. cbv iota.
      unfold iloc0. destruct (rows g) as [|cells rest]; [simpl in Hlen; lia|].
      rewrite bind_Ok, render_certificate_template_cases, Hf. reflexivity.
  - exact Hraise.
  - exact Hnone.
  - intros g count st idx rest w Hg Hrows. apply Hnone.
    by apply (render_template_empty _ _ _ _ g).
  - intros w w3 before rest e Hreach Hids Hstay Hr He.
    unfold run. rewrite (main_batch _ _ _ _ _ _ _ Hreach Hids).
    unfold batch_mode. cbv zeta.
    rewrite bind_run, print_run. cbv beta iota.
    rewrite bind_run, batch_loop_app.
    destruct (batch_loop_run selected_template template_html selected_csv data_df
                (Z.of_nat (length (before ++ selected_id :: rest))) before [] [] 1
                (say [MsgBatchStart (Z.of_nat (length (before ++ selected_id :: rest)))]
                   w3))
      as [w' [Hloop _]].
    { intros id Hid. rewrite forallb_forall in Hstay.
      specialize (Hstay id ltac:(by apply list_elem_of_In)). unfold stays in Hstay.
      destruct (id_outcome _ _ _ _ id) as [b|]; [by exists b | done]. }
    rewrite Hloop. cbn [snd]. rewrite (Hraise e _ _ _ _ _ Hr).
    replace (1 + Z.of_nat (length before)) with (Z.of_nat (length before) + 1) by lia.
    destruct e; try done; f_equal; unfold say, set_console; cbn;
      by rewrite <- app_assoc.
Qed.



End ControllerProperties.

(** * The properties at the example data *)

Section Instances.
Import AsciiBuiltins Examples.

(** The act 1 of [two_acts_df]. *)
Definition act_1_df : DataFrame := {|
  columns := act_columns;
  rows := [act_cells (VInt 1) "Paint wall" 2 "m2" (VInt 10) (VInt 20)]
|}.

Definition batch_keys : list key_event := [Line "1"; Line "1"; Line "2"].

(** The example of the specification: a table of two rows and the total
    [25.00]. *)
Example paint_wall_and_seal :
  render_act_template "<table>$positions_rows</table>$total_amount" paint_df
  = Ok (Html ("<table>" +:+
        position_row "1" "Paint wall" "2" "m2" "10" "20" +:+
        position_row "2" "Seal" "1" "pc" "5" "5" +:+
        "</table>25.00")).
Proof. vm_compute. reflexivity. Qed.

(** A total that [float] rejects is left out of the sum. *)
Example text_total_left_out :
  render_act_template "$total_amount" text_total_df = Ok (Html "20.50").
Proof. vm_compute. reflexivity. Qed.


Lemma act_total_amount_witness :
  (1 <= length (rows paint_df))%nat /\
  has_columns paint_df (item_fields ++ header_fields) = true /\
  (exists (first_row : Row) (positions_rows : string),
     render_act_template act_template paint_df
     = Ok (Html (safe_substitute
         (act_header positions_rows (format_2f (act_total paint_df)) first_row)
         act_template))) /\
  (is_finite (act_total paint_df) = true ->
   two_decimals (format_2f (act_total paint_df))) /\
  (is_finite (act_total paint_df) = false ->
   format_2f (act_total paint_df) = "nan" \/
   format_2f (act_total paint_df) = "inf" \/
   format_2f (act_total paint_df) = "-inf").
Proof.
  split; [vm_compute; lia|].
  split; [reflexivity|].
  apply (act_total_amount act_template paint_df); [vm_compute; lia | reflexivity].
Defined.

(** C1 as stated fails: an empty cell in a numeric [total] column is NaN,
    [float] accepts it, the sum is NaN and the total is printed as [nan], with
    no decimals. *)
Lemma empty_total_prints_nan :
  render_act_template "$total_amount" empty_total_df = Ok (Html "nan").
Proof. vm_compute. reflexivity. Qed.



(** C4 as stated fails: the table has no column [client]; the render of the
    first act raises, the run ends with status 1 and the second act is not
    taken. *)
Lemma missing_field_ends_run :
  (let r := run (env := weasy_env act_html no_client_df) (start batch_keys) in
   (r.1, drop 12 (console r.2), size (files r.2)))
  = (1,
     [MsgBatchStart 2; MsgBatchItem 1 2 (VInt 1); MsgError (AttributeError "client")],
     0%nat).
Proof. vm_compute. reflexivity. Qed.

(** C5 as stated fails: xhtml2pdf reports an error, the emitter reports
    failure, and the destination, which did not exist, holds what was
    written. *)
Lemma xhtml2pdf_error_leaves_file :
  (let r := generate_pdf (env := pisa_env act_html two_acts_df) "<p>Seal</p>"
              "output/a.pdf" (start []) in
   (files (start []) !! "output/a.pdf", r.1, files r.2 !! "output/a.pdf"))
  = (None, Ok false, Some "%PDF").
Proof. vm_compute. reflexivity. Qed.

Lemma unknown_template_fails_witness :
  String.eqb (stem invoice_html) "act" = false /\
  String.eqb (stem invoice_html) "certificate" = false /\
  df_where_eq two_acts_df "id" (VInt 1) = Ok act_1_df /\
  render_template invoice_html act_template two_acts_df (VInt 1)
  = Ok (PrintedNone
          match rows act_1_df with
          | [] => MsgNoDataForId (VInt 1)
          | _ :: _ => MsgUnknownTemplate (stem invoice_html)
          end) /\
  (forall w,
     files (single_mode (env := weasy_env invoice_html two_acts_df) invoice_html
              act_template data_csv two_acts_df (VInt 1) w).2 = files w) /\
  (forall count st idx w,
     (batch_body (env := weasy_env invoice_html two_acts_df) invoice_html act_template
        data_csv two_acts_df count st idx (VInt 1) w).1
     = Ok (st.1, st.2 ++ [label (VInt 1)]) /\
     files (batch_body (env := weasy_env invoice_html two_acts_df) invoice_html
              act_template data_csv two_acts_df count st idx (VInt 1) w).2 = files w).
Proof.
  split; [reflexivity|].
  split; [reflexivity|].
  split; [reflexivity|].
  apply (unknown_template_fails (env := weasy_env invoice_html two_acts_df));
    reflexivity.
Defined.

(** C6 as stated fails: the template is unknown and no row equals the
    identifier (the NaN of an empty [id] cell, which the batch takes from the
    column); the render fails with the message of the missing data, not with
    the one of the unknown template. *)
Lemma unknown_template_no_data_first :
  render_template invoice_html act_template empty_id_df (VFloat nan)
  = Ok (PrintedNone (MsgNoDataForId (VFloat nan))).
Proof. vm_compute. reflexivity. Qed.

Lemma absent_id_no_data_witness :
  df_column two_acts_df "id" = Ok [VInt 2; VInt 1] /\
  forallb (fun v => negb (py_eq v (VInt 5))) [VInt 2; VInt 1] = true /\
  render_template act_html act_template two_acts_df (VInt 5)
  = Ok (PrintedNone (MsgNoDataForId (VInt 5))) /\
  (forall w,
     files (single_mode (env := weasy_env act_html two_acts_df) act_html act_template
              data_csv two_acts_df (VInt 5) w).2 = files w) /\
  (forall count st idx w,
     (batch_body (env := weasy_env act_html two_acts_df) act_html act_template data_csv
        two_acts_df count st idx (VInt 5) w).1
     = Ok (st.1, st.2 ++ [label (VInt 5)]) /\
     files (batch_body (env := weasy_env act_html two_acts_df) act_html act_template
              data_csv two_acts_df count st idx (VInt 5) w).2 = files w).
Proof.
  split; [reflexivity|].
  split; [reflexivity|].
  apply (absent_id_no_data (env := weasy_env act_html two_acts_df) act_html
           act_template data_csv two_acts_df (VInt 5) [VInt 2; VInt 1]);
    reflexivity.
Defined.



(** A placeholder that is no keyword of the certificate stays in the
    document. *)
Example stamp_left_in_place :
  render_certificate_template "Dear $student_name, $stamp ${seal}"
    (zip_row (columns certificates_df) [VInt 1; VStr "Ada"; VStr "Logic"; VStr "2024-02-01"])
  = Ok (Html "Dear Ada, $stamp ${seal}").
Proof. vm_compute. reflexivity. Qed.

(** The run over the table without the column [client] comes to the batch. *)
Example no_client_reaches_batch :
  exists w3,
    reaches_batch (env := weasy_env act_html no_client_df) (start batch_keys)
      act_html act_template data_csv no_client_df w3.
Proof.
  unfold reaches_batch. eexists _, 1, 1, _, _.
  split; [reflexivity|]. split; [reflexivity|]. split; [reflexivity|].
  split; [reflexivity|]. split; [reflexivity|]. split; [reflexivity|].
  reflexivity.
Qed.

Lemma group_failures_witness :
  (exists w3,
     reaches_batch (env := weasy_env act_html no_client_df) (start batch_keys)
       act_html act_template data_csv no_client_df w3) /\
  unique_ids no_client_df = Ok ([] ++ VInt 1 :: [VInt 2]) /\
  render_template act_html act_template no_client_df (VInt 1)
  = Raise (AttributeError "client") /\
  (run (env := weasy_env act_html no_client_df) (start batch_keys)).1 = 1.
Proof.
  split; [exact no_client_reaches_batch|].
  split; [reflexivity|]. split; [reflexivity|].
  destruct no_client_reaches_batch as [w3 Hreach].
  destruct (group_failures (env := weasy_env act_html no_client_df) act_html
              act_template data_csv no_client_df (VInt 1))
    as (_ & _ & _ & _ & _ & Hrun).
  by rewrite (Hrun (start batch_keys) w3 [] [VInt 2] (AttributeError "client") Hreach).
Defined.

End Instances.


(** * Further properties of the code *)

Section PromptProperties.
Context {py : PyBuiltins} {env : Environment}.

Lemma get_choice_on_rejected (max_value : Z) (before rest : list key_event) :
  forallb (rejected max_value) before = true ->
  get_choice_on max_value (before ++ rest)
  = (map (rejection max_value) before ++ (get_choice_on max_value rest).1.1,
     (get_choice_on max_value rest).1.2,
     (get_choice_on max_value rest).2).
Proof.
  induction before as [|k before IH]; intros Hrej.
  - cbn [app map]. by destruct (get_choice_on max_value rest) as [[out r] keys].
  - cbn [forallb] in Hrej. apply andb_prop in Hrej as [Hk Hrej].
    cbn [app map get_choice_on]. rewrite (IH Hrej).
    destruct k as [choice|]; [|done]. cbn [rejected rejection] in *.
    destruct (int_of_str choice) as [n|]; [|reflexivity].
    apply negb_true_iff in Hk. by rewrite Hk.
Qed.

Lemma get_choice_line (max_value : Z) (w : world)
    (before : list key_event) (choice : string) (n : Z) (after : list key_event) :
  keyboard w = before ++ Line choice :: after ->
  forallb (rejected max_value) before = true ->
  int_of_str choice = Some n ->
  1 <= n <= max_value ->
  get_choice max_value w
  = (Ok n, set_keyboard after (say (map (rejection max_value) before) w)).
Proof.
  intros Hkeys Hrej Hint Hn. unfold get_choice. rewrite Hkeys.
  rewrite (get_choice_on_rejected _ _ _ Hrej). cbn [get_choice_on].
  rewrite Hint.
  replace ((1 <=? n) && (n <=? max_value)) with true
    by (symmetry; apply andb_true_intro; split; apply Z.leb_le; lia).
  cbn [fst snd]. by rewrite app_nil_r.
Qed.

(** X1. [get_choice] returns the number of the first line that is a number
    within the bounds; it prints one message for each line before it, and
    leaves what was typed after it. *)
Theorem get_choice_accepts (max_value : Z) (w : world)
    (before : list key_event) (choice : string) (n : Z) (after : list key_event) :
  keyboard w = before ++ Line choice :: after ->
  forallb (rejected max_value) before = true ->
  int_of_str choice = Some n ->
  1 <= n <= max_value ->
  get_choice max_value w
  = (Ok n, set_keyboard after (say (map (rejection max_value) before) w)).
Proof. apply get_choice_line. Qed.

(** X2. When the input ends and no line was accepted, [get_choice] raises
    [EOFError] after one message for each line; nothing catches it. *)
Theorem get_choice_end_of_input (max_value : Z) (w : world) :
  forallb (rejected max_value) (keyboard w) = true ->
  get_choice max_value w
  = (Raise EOFError,
     set_keyboard [] (say (map (rejection max_value) (keyboard w)) w)).
Proof.
  intros Hrej. unfold get_choice.
  rewrite <- (app_nil_r (keyboard w)) at 1.
  rewrite (get_choice_on_rejected _ _ _ Hrej). cbn [get_choice_on fst snd].
  by rewrite app_nil_r.
Qed.

(** X3. With a bound below 1, the menu of an empty list, [get_choice] never
    returns: it ends with Ctrl-C or with the end of the input. *)
Theorem get_choice_empty_menu (max_value : Z) (w : world) :
  max_value < 1 ->
  (get_choice max_value w).1 = Raise (SystemExit 0) \/
  (get_choice max_value w).1 = Raise EOFError.
Proof.
  intros Hmax. unfold get_choice.
  assert (Hon : (get_choice_on max_value (keyboard w)).1.2 = Raise (SystemExit 0) \/
                (get_choice_on max_value (keyboard w)).1.2 = Raise EOFError).
  { induction (keyboard w) as [|k keys IH]; cbn [get_choice_on]; [by right|].
    destruct k as [choice|]; [|by left].
    destruct (int_of_str choice) as [n|].
    - replace ((1 <=? n) && (n <=? max_value)) with false.
      + by destruct (get_choice_on max_value keys) as [[out r] rest].
      + symmetry. apply andb_false_iff.
        destruct (Z.leb_spec 1 n); [right; apply Z.leb_gt; lia | by left].
    - by destruct (get_choice_on max_value keys) as [[out r] rest]. }
  by destruct (get_choice_on max_value (keyboard w)) as [[out r] rest].
Qed.

End PromptProperties.

Section BackendProperties.
Context {py : PyBuiltins} {env : Environment}.

(** X7. After the imports, exactly one backend is switched on, WeasyPrint
    when it imports; the emitter then fails only when the backend that is
    switched on fails: with WeasyPrint when [write_pdf] raises, with xhtml2pdf
    when the file cannot be opened or [CreatePDF] raises or reports errors. *)
Theorem one_backend (weasyprint xhtml2pdf : import_outcome)
    (html_content output_path : string) (w : world) :
  (load_backends weasyprint xhtml2pdf).2 = Ok (USE_WEASYPRINT, USE_XHTML2PDF) ->
  xorb USE_WEASYPRINT USE_XHTML2PDF = true /\
  (USE_WEASYPRINT = true <-> weasyprint = Imported) /\
  ((generate_pdf html_content output_path w).1 = Ok false ->
   USE_WEASYPRINT = true /\
     (exists e part, write_pdf html_content output_path = WeasyRaised e part) \/
   USE_XHTML2PDF = true /\
     (open_wb output_path = false \/
      (exists content err, CreatePDF html_content = PisaReturned content err /\ err <> 0) \/
      (exists e content, CreatePDF html_content = PisaRaised e content))).
Proof.
  intros Hload.
  assert (Hflags : USE_WEASYPRINT = true /\ USE_XHTML2PDF = false /\ weasyprint = Imported \/
                   USE_WEASYPRINT = false /\ USE_XHTML2PDF = true /\ weasyprint <> Imported).
  { unfold load_backends in Hload.
    destruct weasyprint as [| |[]]; [left | right ..]; try done;
      destruct xhtml2pdf; cbn in Hload; try done;
      injection Hload as <- <-; done. }
  split; [|split].
  - by destruct Hflags as [(-> & -> & _)|(-> & -> & _)].
  - destruct Hflags as [(-> & _ & ->)|(-> & _ & Hne)]; split; done.
  - rewrite generate_pdf_run. cbv zeta. unfold emission, write_output.
    destruct Hflags as [(-> & -> & _)|(-> & -> & _)].
    + destruct (write_pdf html_content output_path) as [pdf|e part] eqn:Hw.
      * done.
      * intros _. left. eauto.
    + intros Hr. right. split; [done|].
      destruct (open_wb output_path); [|by left]. right.
      destruct (CreatePDF html_content) as [content err|e content]; [left | right; eauto].
      exists content, err. split; [done|]. intros ->. cbn in Hr. done.
Qed.

End BackendProperties.

Section GroupProperties.
Context {py : PyBuiltins}.

Lemma select_rows_filter {A} (f : A -> bool) (g : list value -> A)
    (rs : list (list value)) :
  select_rows (map f (map g rs)) rs = List.filter (fun r => f (g r)) rs.
Proof.
  induction rs as [|r rs IH]; [reflexivity|].
  cbn [map select_rows List.filter]. by destruct (f (g r)); rewrite IH.
Qed.

Lemma df_where_eq_filter (data_df : DataFrame) (selected_id : value) :
  df_where_eq data_df "id" selected_id
  = if has_column data_df "id"
    then Ok {| columns := columns data_df;
               rows := List.filter (fun cells => py_eq (row_id data_df cells) selected_id)
                         (rows data_df) |}
    else Raise (KeyError "id").
Proof.
  unfold df_where_eq, df_column, has_column.
  destruct (existsb (String.eqb "id") (columns data_df)); [|reflexivity].
  rewrite bind_Ok. unfold df_mask. f_equal. f_equal.
  apply (select_rows_filter (fun v => py_eq v selected_id)).
Qed.

Lemma filter_first {A} (f : A -> bool) (before : list A) (x : A) (after : list A) :
  forallb (fun y => negb (f y)) before = true -> f x = true ->
  List.filter f (before ++ x :: after) = x :: List.filter f after.
Proof.
  intros Hbefore Hx. induction before as [|y before IH]; cbn [app List.filter].
  - by rewrite Hx.
  - cbn [forallb] in Hbefore. apply andb_prop in Hbefore as [Hy Hbefore].
    apply negb_true_iff in Hy. rewrite Hy. by apply IH.
Qed.

(** X9. A certificate is made from the first row of the table, in the order of
    the table, whose [id] equals the identifier; the rows after it with the
    same [id] have no part in it.  The row holds text, as the row of a
    certificate does, so that [iloc] hands over every cell as the table has
    it. *)
Theorem certificate_from_first_row (template_path : Path) (template_html : string)
    (data_df : DataFrame) (selected_id : value)
    (before : list (list value)) (cells : list value) (after : list (list value)) :
  stem template_path = "certificate" ->
  has_column data_df "id" = true ->
  rows data_df = before ++ cells :: after ->
  forallb (fun r => negb (py_eq (row_id data_df r) selected_id)) before = true ->
  py_eq (row_id data_df cells) selected_id = true ->
  existsb is_text cells = true ->
  render_template template_path template_html data_df selected_id
  = render_certificate_template template_html (zip_row (columns data_df) cells).
Proof.
  intros Hstem Hid Hrows Hbefore Hcells _.
  pose proof (df_where_eq_filter data_df selected_id) as Hg. rewrite Hid in Hg.
  rewrite Hrows, (filter_first (fun r => py_eq (row_id data_df r) selected_id))
    in Hg by assumption.
  rewrite (render_template_group _ _ _ _ _ Hg) by (simpl; lia).
  rewrite Hstem. change ("certificate" =? "act")%string with false.
  change ("certificate" =? "certificate")%string with true. cbv iota.
  unfold iloc0. cbn [rows columns]. by rewrite bind_Ok.
Qed.

End GroupProperties.

(** ** The identifiers of a table *)

Lemma existsb_unique_eq_int (y : Z) (s : list Z) :
  existsb (unique_eq (VInt y)) (map VInt s) = true <-> y ∈ s.
Proof.
  induction s as [|z s IH]; cbn [map existsb].
  - split; [done | intros Hy; by apply elem_of_nil in Hy].
  - rewrite orb_true_iff, IH, elem_of_cons.
    unfold unique_eq. cbn. rewrite orb_false_r, Z.eqb_eq. done.
Qed.

Lemma unique_from_ints (zs : list Z) : forall s : list Z,
  NoDup s ->
  exists s', unique_from (map VInt s) (map VInt zs) = map VInt s' /\
             NoDup s' /\ (forall z, z ∈ s' <-> z ∈ s \/ z ∈ zs).
Proof.
  induction zs as [|y zs IH]; intros s Hs; cbn [map unique_from].
  - exists s. repeat split; try done.
    + by left.
    + intros [?|Hz]; [done | by apply elem_of_nil in Hz].
  - destruct (existsb (unique_eq (VInt y)) (map VInt s)) eqn:Hy.
    + apply existsb_unique_eq_int in Hy.
      destruct (IH s Hs) as [s' (Hrun & Hnodup & Hin)].
      exists s'. repeat split; try done.
      * intros Hz. apply Hin in Hz as [?|?]; [by left | right; by constructor].
      * intros [?|Hz]; apply Hin; [by left|].
        apply elem_of_cons in Hz as [->|?]; [by left | by right].
    + assert (Hnot : y ∉ s).
      { intros Hin. apply existsb_unique_eq_int in Hin. congruence. }
      destruct (IH (s ++ [y])) as [s' (Hrun & Hnodup & Hin)].
      { apply NoDup_app. repeat split; [done | | apply NoDup_singleton].
        intros z Hz Hz'. apply list_elem_of_singleton in Hz' as ->. done. }
      exists s'. rewrite <- Hrun, map_app. repeat split; try done.
      * intros Hz. apply Hin in Hz as [Hz|?]; [|right; by constructor].
        apply elem_of_app in Hz as [?|Hz]; [by left|].
        apply list_elem_of_singleton in Hz as ->. right. constructor.
      * intros [?|Hz]; apply Hin.
        -- left. apply elem_of_app. by left.
        -- apply elem_of_cons in Hz as [->|?]; [|by right].
           left. apply elem_of_app. right. constructor.
Qed.

Lemma insert_sorted_int (x : Z) (acc : list Z) :
  StronglySorted Z.lt acc -> x ∉ acc ->
  exists acc', insert_sorted (VInt x) (map VInt acc) = Ok (map VInt acc') /\
               StronglySorted Z.lt acc' /\
               (forall z, z ∈ acc' <-> z = x \/ z ∈ acc).
Proof.
  induction acc as [|y acc IH]; intros Hsorted Hx; cbn [map insert_sorted].
  - exists [x]. repeat split.
    + repeat constructor.
    + intros Hz. apply list_elem_of_singleton in Hz. by left.
    + intros [->|Hz]; [constructor | by apply elem_of_nil in Hz].
  - cbn [py_lt]. rewrite bind_Ok.
    apply StronglySorted_inv in Hsorted as [Hacc Hy].
    destruct (Z.ltb_spec x y) as [Hlt|Hge].
    + exists (x :: y :: acc). repeat split.
      * constructor; [by constructor|].
        constructor; [done|]. eapply Forall_impl; [exact Hy|]. intros z Hz. cbn in *. lia.
      * intros Hz. apply elem_of_cons in Hz as [?|?]; [by left | by right].
      * intros [->|Hz]; [constructor | by constructor].
    + assert (x <> y) by (intros ->; apply Hx; constructor).
      destruct (IH Hacc) as [acc' (Hrun & Hsorted' & Hin)].
      { intros Hin. apply Hx. by constructor. }
      rewrite Hrun, bind_Ok. exists (y :: acc'). repeat split.
      * constructor; [done|]. apply Forall_forall. intros z Hz.
        apply Hin in Hz as [->|Hz]; [lia|].
        rewrite Forall_forall in Hy. by apply Hy.
      * intros Hz. apply elem_of_cons in Hz as [->|Hz]; [right; constructor|].
        apply Hin in Hz as [?|?]; [by left | right; by constructor].
      * intros [->|Hz].
        -- constructor. apply Hin. by left.
        -- apply elem_of_cons in Hz as [->|Hz]; [constructor|].
           constructor. apply Hin. by right.
Qed.

Lemma sorted_from_ints (l : list Z) : forall acc : list Z,
  StronglySorted Z.lt acc -> NoDup l -> (forall z, z ∈ l -> z ∉ acc) ->
  exists acc',
    foldl (fun acc x => acc' ← acc; insert_sorted x acc') (Ok (map VInt acc)) (map VInt l)
    = Ok (map VInt acc') /\
    StronglySorted Z.lt acc' /\ (forall z, z ∈ acc' <-> z ∈ acc \/ z ∈ l).
Proof.
  induction l as [|x l IH]; intros acc Hsorted Hnodup Hdisjoint; cbn [map foldl].
  - exists acc. repeat split; try done.
    + by left.
    + intros [?|Hz]; [done | by apply elem_of_nil in Hz].
  - apply NoDup_cons in Hnodup as [Hx Hnodup].
    destruct (insert_sorted_int x acc Hsorted) as [acc1 (Hrun1 & Hsorted1 & Hin1)].
    { apply Hdisjoint. constructor. }
    rewrite bind_Ok, Hrun1.
    destruct (IH acc1 Hsorted1 Hnodup) as [acc' (Hrun & Hsorted' & Hin)].
    { intros z Hz Hz1. apply Hin1 in Hz1 as [->|Hz1]; [done|].
      by apply (Hdisjoint z); [constructor|]. }
    exists acc'. repeat split; try done.
    + intros Hz. apply Hin in Hz as [Hz|?]; [|right; by constructor].
      apply Hin1 in Hz as [->|?]; [right; constructor | by left].
    + intros [Hz|Hz]; apply Hin.
      * left. apply Hin1. by right.
      * apply elem_of_cons in Hz as [->|?]; [|by right]. left. apply Hin1. by left.
Qed.

(** X10. A table whose [id] column holds integers: the identifiers of the
    menu and of the batch are the distinct integers of the column in strictly
    increasing order. *)
Theorem unique_ids_of_integers (data_df : DataFrame) (zs : list Z) :
  df_column data_df "id" = Ok (map VInt zs) ->
  exists ids,
    unique_ids data_df = Ok (map VInt ids) /\
    StronglySorted Z.lt ids /\
    (forall z, z ∈ ids <-> z ∈ zs).
Proof.
  intros Hcol. unfold unique_ids, sorted, unique. rewrite Hcol, bind_Ok.
  destruct (unique_from_ints zs [] (NoDup_nil_2)) as [s (Hs & Hnodup & Hin)].
  change (@nil value) with (map VInt []) at 2. rewrite Hs.
  destruct (sorted_from_ints s [] ltac:(constructor) Hnodup) as [ids (Hrun & Hsorted & Hids)].
  { intros z _ Hz. by apply elem_of_nil in Hz. }
  exists ids. split; [exact Hrun|]. split; [exact Hsorted|].
  intros z. rewrite Hids, Hin. split.
  - intros [Hz|[Hz|?]]; [by apply elem_of_nil in Hz | by apply elem_of_nil in Hz | done].
  - intros Hz. right. by right.
Qed.

(** *** Text and numbers in one column *)

Lemma py_lt_same_kind (x y : value) :
  is_text x = is_text y -> exists b, py_lt x y = Ok b.
Proof. destruct x, y; cbn; try done; eauto. Qed.

Lemma py_lt_other_kind (x y : value) :
  is_text x <> is_text y -> py_lt x y = Raise TypeError.
Proof. destruct x, y; cbn; done. Qed.

Lemma insert_sorted_same_kind (k : bool) (x : value) (acc : list value) :
  is_text x = k -> Forall (fun y => is_text y = k) acc ->
  exists acc', insert_sorted x acc = Ok acc' /\ acc' <> [] /\
               Forall (fun y => is_text y = k) acc'.
Proof.
  intros Hx. induction acc as [|y acc IH]; intros Hacc; cbn [insert_sorted].
  - exists [x]. repeat split; [done | by constructor].
  - apply Forall_cons in Hacc as [Hy Hacc].
    destruct (py_lt_same_kind x y ltac:(congruence)) as [b ->]. rewrite bind_Ok.
    destruct b.
    + exists (x :: y :: acc). repeat split; [done | by repeat constructor].
    + destruct (IH Hacc) as [acc' (-> & _ & Hall)]. rewrite bind_Ok.
      exists (y :: acc'). repeat split; [done | by constructor].
Qed.

Lemma sorted_raised (e : exn) (l : list value) :
  foldl (fun acc x => acc' ← acc; insert_sorted x acc') (Raise e) l = Raise e.
Proof. induction l as [|x l IH]; [reflexivity | exact IH]. Qed.

Lemma sorted_mixed (k : bool) (l : list value) : forall acc : list value,
  acc <> [] -> Forall (fun y => is_text y = k) acc ->
  Exists (fun y => is_text y <> k) l ->
  foldl (fun acc x => acc' ← acc; insert_sorted x acc') (Ok acc) l = Raise TypeError.
Proof.
  induction l as [|x l IH]; intros acc Hne Hacc Hex; [by apply Exists_nil in Hex|].
  cbn [foldl]. rewrite bind_Ok.
  destruct (decide (is_text x = k)) as [Hx|Hx].
  - destruct (insert_sorted_same_kind k x acc Hx Hacc) as [acc' (-> & Hne' & Hall)].
    apply IH; [done..|]. by apply Exists_cons in Hex as [?|?].
  - destruct acc as [|y acc]; [done|]. cbn [insert_sorted].
    apply Forall_cons in Hacc as [Hy _].
    rewrite (py_lt_other_kind x y) by congruence.
    apply sorted_raised.
Qed.

Lemma unique_eq_kind (x y : value) : unique_eq x y = true -> is_text x = is_text y.
Proof.
  unfold unique_eq. destruct x, y; cbn; rewrite ?andb_false_r; done.
Qed.

Lemma unique_from_covers (l : list value) : forall (seen : list value) (x : value),
  x ∈ seen \/ x ∈ l ->
  exists y, y ∈ unique_from seen l /\ is_text y = is_text x.
Proof.
  induction l as [|z l IH]; intros seen x Hx; cbn [unique_from].
  - destruct Hx as [?|Hx]; [by exists x | by apply elem_of_nil in Hx].
  - destruct (existsb (unique_eq z) seen) eqn:Hz.
    + destruct Hx as [?|Hx]; [apply IH; by left|].
      apply elem_of_cons in Hx as [->|?]; [|apply IH; by right].
      apply existsb_exists in Hz as [y [Hy Heq]].
      destruct (IH seen y) as [y' [Hy' Hk]]; [left; by apply list_elem_of_In|].
      exists y'. split; [done|]. rewrite Hk. symmetry. by apply unique_eq_kind.
    + apply IH. destruct Hx as [?|Hx].
      * left. apply elem_of_app. by left.
      * apply elem_of_cons in Hx as [->|?]; [|by right].
        left. apply elem_of_app. right. constructor.
Qed.

Lemma sorted_unique_mixed (col : list value) :
  existsb is_text col = true ->
  existsb (fun v => negb (is_text v)) col = true ->
  sorted (unique col) = Raise TypeError.
Proof.
  intros Htext Hnum. unfold sorted, unique.
  apply existsb_exists in Htext as [t [Ht Htk]].
  apply existsb_exists in Hnum as [n [Hn Hnk]]. apply negb_true_iff in Hnk.
  destruct (unique_from_covers col [] t) as [t' [Ht' Htk']];
    [right; by apply list_elem_of_In|].
  destruct (unique_from_covers col [] n) as [n' [Hn' Hnk']];
    [right; by apply list_elem_of_In|].
  destruct (unique_from [] col) as [|x u]; [by apply elem_of_nil in Ht'|].
  cbn [foldl insert_sorted]. rewrite bind_Ok.
  apply (sorted_mixed (is_text x)); [done | by repeat constructor |].
  apply Exists_exists.
  destruct (is_text x) eqn:Hx.
  - exists n'. split; [|congruence].
    apply elem_of_cons in Hn' as [->|?]; [congruence | done].
  - exists t'. split; [|congruence].
    apply elem_of_cons in Ht' as [->|?]; [congruence | done].
Qed.

(** X11. A table whose [id] column holds both text and numbers (a number may
    be the NaN of an empty cell): the identifiers cannot be sorted, and
    [TypeError] is raised before any mode is entered. *)
Theorem unique_ids_of_mixed_column (data_df : DataFrame) (col : list value) :
  df_column data_df "id" = Ok col ->
  existsb is_text col = true ->
  existsb (fun v => negb (is_text v)) col = true ->
  unique_ids data_df = Raise TypeError.
Proof.
  intros Hcol Htext Hnum. unfold unique_ids. rewrite Hcol, bind_Ok.
  by apply sorted_unique_mixed.
Qed.

(** ** The template engine *)

Lemma list_ascii_of_string_app (a b : string) :
  list_ascii_of_string (a +:+ b) = list_ascii_of_string a ++ list_ascii_of_string b.
Proof.
  induction a as [|c a IH]; [reflexivity|].
  rewrite append_cons. cbn [list_ascii_of_string app]. by rewrite IH.
Qed.

Lemma scan_plain (pre l : list ascii) :
  forallb (fun c => negb (Ascii.eqb c "$")) pre = true ->
  scan 0 (pre ++ l) = map TLit pre ++ scan 0 l.
Proof.
  induction pre as [|c pre IH]; intros Hpre; [reflexivity|].
  cbn [forallb] in Hpre. apply andb_true_iff in Hpre as [Hc Hpre].
  apply negb_true_iff in Hc.
  cbn [app scan map]. rewrite Hc. by rewrite IH.
Qed.

Lemma scan_skip (l k : list ascii) : scan (length l) (l ++ k) = scan 0 k.
Proof.
  induction l as [|c l IH]; [reflexivity|].
  cbn [length app scan]. exact IH.
Qed.

Lemma scan_skip_succ (l : list ascii) (c : ascii) (k : list ascii) :
  scan (S (length l)) (l ++ c :: k) = scan 0 k.
Proof.
  induction l as [|x l IH]; [reflexivity|].
  cbn [length app]. cbn [scan]. exact IH.
Qed.

Lemma join_literals (mapping : gmap string string) (l : list ascii) :
  join (map (convert mapping) (map TLit l)) = string_of_list_ascii l.
Proof.
  induction l as [|c l IH]; [reflexivity|].
  cbn [map convert token_text]. unfold join in *. cbn [foldr].
  rewrite IH. reflexivity.
Qed.

Lemma take_while_all (p : ascii -> bool) (l : list ascii) (c : ascii) (k : list ascii) :
  forallb p l = true -> p c = false -> take_while p (l ++ c :: k) = l.
Proof.
  intros Hl Hc. induction l as [|x l IH]; cbn [app take_while].
  - by rewrite Hc.
  - cbn [forallb] in Hl. apply andb_true_iff in Hl as [-> Hl]. by rewrite IH.
Qed.

Lemma match_delimiter_braced (n : string) (post : list ascii) :
  is_identifier n = true ->
  match_delimiter ("{"%char :: list_ascii_of_string n ++ "}"%char :: post)
  = (TBraced n, S (S (length (list_ascii_of_string n)))).
Proof.
  unfold is_identifier. intros Hn.
  destruct (list_ascii_of_string n) as [|c l] eqn:Hl; [done|].
  apply andb_true_iff in Hn as [Hc Hrest].
  unfold match_delimiter. cbn [ident_at].
  change (is_id_start "{") with false. cbv iota.
  cbn [app ident_at]. rewrite Hc.
  rewrite (take_while_all is_id_char l "}" post Hrest eq_refl).
  cbv zeta. cbn [length drop]. rewrite drop_app_length.
  rewrite <- Hl, string_of_list_ascii_of_string. reflexivity.
Qed.

(** X12. A template without a dollar sign is returned as it is, whatever the
    record holds. *)
Theorem safe_substitute_plain (mapping : gmap string string) (template : string) :
  plain template = true ->
  safe_substitute mapping template = template.
Proof.
  unfold plain, safe_substitute, tokenize. intros Hplain.
  rewrite <- (app_nil_r (list_ascii_of_string template)).
  rewrite scan_plain by exact Hplain.
  cbn [scan]. rewrite app_nil_r, join_literals.
  apply string_of_list_ascii_of_string.
Qed.

(** X13. The first placeholder of a template, in braces: the text before it is
    kept, the placeholder becomes the value of the record, or stays when the
    record has no such field, and the value is not read again: the rest of the
    template is substituted on its own. *)
Theorem safe_substitute_braced
    (mapping : gmap string string) (pre field_name post : string) :
  plain pre = true ->
  is_identifier field_name = true ->
  safe_substitute mapping (pre +:+ "${" +:+ field_name +:+ "}" +:+ post)
  = pre +:+ default ("${" +:+ field_name +:+ "}") (mapping !! field_name)
        +:+ safe_substitute mapping post.
Proof.
  intros Hpre Hname. unfold safe_substitute, tokenize.
  rewrite !list_ascii_of_string_app.
  rewrite scan_plain by exact Hpre.
  change (list_ascii_of_string "${") with ["$"%char; "{"%char].
  change (list_ascii_of_string "}") with ["}"%char].
  cbn [app scan]. change (Ascii.eqb "$" "$") with true. cbv iota.
  rewrite (match_delimiter_braced field_name _ Hname).
  cbn [scan]. rewrite scan_skip_succ.
  rewrite map_app, join_app, join_literals, string_of_list_ascii_of_string.
  apply (f_equal (String.append pre)). reflexivity.
Qed.

(** ** The names of the documents *)

Lemma append_inv_head (a x y : string) : a +:+ x = a +:+ y -> x = y.
Proof.
  induction a as [|c a IH]; [done|].
  rewrite !append_cons. intros [= H]. by apply IH.
Qed.

Lemma list_ascii_of_string_inj (x y : string) :
  list_ascii_of_string x = list_ascii_of_string y -> x = y.
Proof.
  intros H. rewrite <- (string_of_list_ascii_of_string x),
    <- (string_of_list_ascii_of_string y). by rewrite H.
Qed.

Lemma append_inv_tail (s x y : string) : x +:+ s = y +:+ s -> x = y.
Proof.
  intros H. apply list_ascii_of_string_inj.
  apply (f_equal list_ascii_of_string) in H.
  rewrite !list_ascii_of_string_app in H. by apply app_inv_tail in H.
Qed.

Lemma str_of_Z_inj (a b : Z) : str_of_Z a = str_of_Z b -> a = b.
Proof.
  assert (Hsome : forall z,
    NilZero.int_of_string (str_of_Z z) = Some (Z.to_int z)).
  { intros z. unfold str_of_Z. apply NilZero.isi.
    - intros H. pose proof (f_equal Z.of_int H) as H'.
      rewrite DecimalZ.of_to in H'. cbn in H'. by subst z.
    - intros H. pose proof (f_equal Z.of_int H) as H'.
      rewrite DecimalZ.of_to in H'. cbn in H'. by subst z. }
  intros H. apply DecimalZ.to_int_inj.
  pose proof (Hsome a) as Ha. rewrite H, Hsome in Ha. congruence.
Qed.

Lemma insert_sorted_perm (x : value) (acc acc' : list value) :
  insert_sorted x acc = Ok acc' -> acc' ≡ₚ x :: acc.
Proof.
  revert acc'. induction acc as [|y acc IH]; intros acc'; cbn [insert_sorted].
  - by intros [= <-].
  - destruct (py_lt x y) as [[]|e]; [| |done].
    + rewrite bind_Ok. by intros [= <-].
    + rewrite bind_Ok. destruct (insert_sorted x acc) as [l|e]; [|done].
      rewrite bind_Ok. intros [= <-]. rewrite (IH l eq_refl). apply Permutation_swap.
Qed.

Lemma sorted_from_perm (l : list value) : forall acc r : list value,
  foldl (fun acc x => acc' ← acc; insert_sorted x acc') (Ok acc) l = Ok r ->
  r ≡ₚ acc ++ l.
Proof.
  induction l as [|x l IH]; intros acc r; cbn [foldl].
  - intros [= <-]. by rewrite app_nil_r.
  - rewrite bind_Ok. destruct (insert_sorted x acc) as [acc1|e] eqn:Hins.
    + intros Hr. rewrite (IH _ _ Hr), (insert_sorted_perm _ _ _ Hins).
      cbn [app]. apply Permutation_middle.
    + by rewrite sorted_raised.
Qed.

Section DocumentNames.
Context {py : PyBuiltins}.

Lemma py_str_inj (k : bool) (x y : value) :
  is_float x = false -> is_float y = false ->
  is_text x = k -> is_text y = k ->
  py_str x = py_str y -> x = y.
Proof.
  destruct x, y; cbn; try done; try congruence.
  intros _ _ _ _ H. f_equal. by apply str_of_Z_inj.
Qed.

Lemma unique_from_names (k : bool) (l : list value) : forall seen : list value,
  Forall (fun v => is_float v = false /\ is_text v = k) seen ->
  Forall (fun v => is_float v = false /\ is_text v = k) l ->
  NoDup (map py_str seen) ->
  NoDup (map py_str (unique_from seen l)).
Proof.
  induction l as [|x l IH]; intros seen Hseen Hl Hnodup; [done|].
  apply Forall_cons in Hl as [[Hxf Hxk] Hl]. cbn [unique_from].
  destruct (existsb (unique_eq x) seen) eqn:Hx; [by apply IH|].
  apply IH; [|done|].
  - apply Forall_app. split; [done | by repeat constructor].
  - rewrite map_app. apply NoDup_app. repeat split; [done| |apply NoDup_singleton].
    intros name Hname Hname'. apply list_elem_of_singleton in Hname' as ->.
    apply list_elem_of_fmap in Hname as [y [Hxy Hy]].
    rewrite Forall_forall in Hseen. destruct (Hseen y Hy) as [Hyf Hyk].
    assert (x = y) as <- by (by apply (py_str_inj k)).
    assert (existsb (unique_eq x) seen = true); [|congruence].
    apply existsb_exists. exists x. split; [by apply list_elem_of_In|].
    unfold unique_eq. rewrite py_eq_refl; [done|].
    by destruct x.
Qed.

(** X14. A table whose [id] column has no float (no empty cell, no decimal
    number): the identifiers that the run takes have pairwise different file
    names. *)
Theorem batch_names_distinct (selected_template selected_csv : Path)
    (data_df : DataFrame) (col ids : list value) :
  df_column data_df "id" = Ok col ->
  forallb (fun v => negb (is_float v)) col = true ->
  unique_ids data_df = Ok ids ->
  NoDup (map (output_filename selected_template selected_csv) ids).
Proof.
  intros Hcol Hfloat Hids. unfold unique_ids in Hids. rewrite Hcol, bind_Ok in Hids.
  assert (Hkind : exists k, Forall (fun v => is_float v = false /\ is_text v = k) col).
  { destruct (existsb is_text col) eqn:Htext.
    - destruct (existsb (fun v => negb (is_text v)) col) eqn:Hnum.
      + by rewrite sorted_unique_mixed in Hids.
      + exists true. apply Forall_forall. intros v Hv. split.
        * rewrite forallb_forall in Hfloat.
          apply negb_true_iff. apply Hfloat. by apply list_elem_of_In.
        * destruct (is_text v) eqn:Hk; [done|].
          assert (existsb (fun v => negb (is_text v)) col = true); [|congruence].
          apply existsb_exists. exists v. split; [by apply list_elem_of_In|]. by rewrite Hk.
    - exists false. apply Forall_forall. intros v Hv. split.
      + rewrite forallb_forall in Hfloat.
        apply negb_true_iff. apply Hfloat. by apply list_elem_of_In.
      + destruct (is_text v) eqn:Hk; [|done].
        assert (existsb is_text col = true); [|congruence].
        apply existsb_exists. exists v. split; [by apply list_elem_of_In | done]. }
  destruct Hkind as [k Hkind].
  assert (Hnames : NoDup (map py_str ids)).
  { unfold sorted in Hids. apply sorted_from_perm in Hids. cbn [app] in Hids.
    rewrite Hids. unfold unique.
    apply (unique_from_names k); [constructor | done | constructor]. }
  assert (Hinj : forall a b : string,
    stem selected_template +:+ "_" +:+ stem selected_csv +:+ "_id" +:+ a +:+ ".pdf"
    = stem selected_template +:+ "_" +:+ stem selected_csv +:+ "_id" +:+ b +:+ ".pdf" ->
    a = b).
  { intros a b H. repeat apply append_inv_head in H. by apply append_inv_tail in H. }
  clear Hids Hkind. induction ids as [|x ids IH]; [constructor|].
  cbn [map] in *. apply NoDup_cons in Hnames as [Hx Hnames].
  apply NoDup_cons. split; [|by apply IH].
  intros Hin. apply Hx.
  apply list_elem_of_fmap in Hin as [y [Hxy Hy]].
  apply list_elem_of_fmap. exists y. split; [|done].
  by apply Hinj.
Qed.

End DocumentNames.

(** ** The ends of a run *)

Section EndProperties.
Context {py : PyBuiltins} {env : Environment}.

Lemma keyboard_with_directory (directory : string) (w : world) :
  keyboard (with_directory directory w) = keyboard w.
Proof.
  unfold with_directory. by destruct (existsb (String.eqb directory) (dirs w)).
Qed.

Lemma keyboard_prepared (w : world) : keyboard (prepared w) = keyboard w.
Proof.
  unfold prepared. cbn [say set_console keyboard].
  by rewrite !keyboard_with_directory.
Qed.

Lemma say_set_keyboard (out : list message) (k : list key_event) (w : world) :
  say out (set_keyboard k w) = set_keyboard k (say out w).
Proof. reflexivity. Qed.

(** X16. A choice that [get_choice] returns for a menu of [xs] is the number
    of an entry of [xs]: taking the entry never raises [IndexError]. *)
Theorem choice_indexes_menu {A} (xs : list A) (w : world) (choice_num : Z) :
  (get_choice (Z.of_nat (length xs)) w).1 = Ok choice_num ->
  exists x, item xs choice_num = Ok x /\ xs !! Z.to_nat (choice_num - 1) = Some x.
Proof.
  unfold get_choice.
  pose proof (get_choice_on_spec (Z.of_nat (length xs)) (keyboard w)) as [_ Hspec].
  destruct (get_choice_on (Z.of_nat (length xs)) (keyboard w)) as [[out r] k].
  cbn [fst snd] in *. intros ->. specialize (Hspec _ eq_refl).
  unfold item. replace (1 <=? choice_num) with true by (symmetry; apply Z.leb_le; lia).
  destruct (xs !! Z.to_nat (choice_num - 1)) as [x|] eqn:Hx; [by exists x|].
  apply lookup_ge_None in Hx. lia.
Qed.

(** X17. Without a template in the templates directory, the run ends with
    status 1 after the message, whatever else is there: nothing is read from
    the keyboard and no file is touched. *)
Theorem no_templates_exit (w : world) :
  glob_html = [] ->
  run w = (1, say [MsgNoTemplates] (prepared w)).
Proof.
  intros Hglob. unfold run, main.
  rewrite bind_run, make_directory_run. cbv beta iota.
  rewrite bind_run, make_directory_run. cbv beta iota.
  rewrite bind_run, make_directory_run. cbv beta iota.
  rewrite bind_run, print_run. cbv beta iota.
  fold (prepared w).
  rewrite bind_run. unfold get_html_templates. rewrite Hglob.
  rewrite bind_run, print_run. cbv beta iota. reflexivity.
Qed.

(** X18. A template that cannot be read ends the run with status 0, after one
    message about it: the status of a run that made its documents.  No data
    file is looked for and no file is touched. *)
Theorem unreadable_template_exit (w : world) (before : list key_event)
    (choice : string) (template_choice : Z) (after : list key_event)
    (selected_template : Path) :
  keyboard w = before ++ Line choice :: after ->
  forallb (rejected (Z.of_nat (length glob_html))) before = true ->
  int_of_str choice = Some template_choice ->
  item glob_html template_choice = Ok selected_template ->
  read_text selected_template = None ->
  run w
  = (0, set_keyboard after
          (say ([MsgMenuHeader "templates"; MsgMenu (map name glob_html)] ++
                map (rejection (Z.of_nat (length glob_html))) before ++
                [MsgLoadingTemplate (name selected_template);
                 MsgTemplateError (name selected_template)])
             (prepared w))).
Proof.
  intros Hkeys Hrej Hint Hitem Hread.
  pose proof (item_bounds _ _ _ Hitem) as Hbounds.
  unfold run, main.
  rewrite bind_run, make_directory_run. cbv beta iota.
  rewrite bind_run, make_directory_run. cbv beta iota.
  rewrite bind_run, make_directory_run. cbv beta iota.
  rewrite bind_run, print_run. cbv beta iota.
  fold (prepared w).
  rewrite bind_run. unfold get_html_templates.
  destruct glob_html as [|t ts] eqn:Hglob; [cbn in Hbounds; lia|].
  unfold ret at 1. cbv beta iota.
  unfold print_menu_header, print_menu.
  rewrite bind_run, print_run. cbv beta iota.
  rewrite bind_run, print_run. cbv beta iota.
  rewrite bind_run.
  rewrite (get_choice_line _ _ before choice template_choice after);
    [|transitivity (keyboard (prepared w)); [reflexivity | by rewrite keyboard_prepared]
     | done..].
  cbv beta iota. rewrite bind_run. unfold lift at 1. rewrite Hitem. cbv beta iota.
  rewrite bind_run, print_run. cbv beta iota.
  rewrite bind_run. unfold read_html_template. rewrite Hread.
  rewrite bind_run, print_run. cbv beta iota. unfold ret. cbv beta iota.
  f_equal. rewrite !say_set_keyboard, !say_say. reflexivity.
Qed.

End EndProperties.

(** ** The further properties at the example data *)

Section MoreInstances.
Import AsciiBuiltins Examples MoreExamples.

Lemma get_choice_accepts_witness :
  keyboard (start [Line "x"; Line "7"; Line "2"; Line "1"])
  = [Line "x"; Line "7"] ++ Line "2" :: [Line "1"] /\
  forallb (rejected 2) [Line "x"; Line "7"] = true /\
  int_of_str "2" = Some 2 /\
  1 <= 2 <= 2 /\
  get_choice 2 (start [Line "x"; Line "7"; Line "2"; Line "1"])
  = (Ok 2, set_keyboard [Line "1"]
             (say (map (rejection 2) [Line "x"; Line "7"])
                (start [Line "x"; Line "7"; Line "2"; Line "1"]))).
Proof.
  split; [reflexivity|]. split; [reflexivity|]. split; [reflexivity|].
  split; [lia|].
  apply (get_choice_accepts 2 (start [Line "x"; Line "7"; Line "2"; Line "1"])
           [Line "x"; Line "7"] "2" 2 [Line "1"]);
    [reflexivity | reflexivity | reflexivity | lia].
Defined.

Lemma get_choice_end_of_input_witness :
  forallb (rejected 2) (keyboard (start [Line "x"; Line "7"])) = true /\
  get_choice 2 (start [Line "x"; Line "7"])
  = (Raise EOFError,
     set_keyboard []
       (say (map (rejection 2) (keyboard (start [Line "x"; Line "7"])))
          (start [Line "x"; Line "7"]))).
Proof.
  split; [reflexivity|].
  apply (get_choice_end_of_input 2 (start [Line "x"; Line "7"])). reflexivity.
Defined.

Lemma get_choice_empty_menu_witness :
  0 < 1 /\
  ((get_choice 0 (start [Line "1"; CtrlC])).1 = Raise (SystemExit 0) \/
   (get_choice 0 (start [Line "1"; CtrlC])).1 = Raise EOFError).
Proof.
  split; [lia|].
  apply (get_choice_empty_menu 0 (start [Line "1"; CtrlC])). lia.
Defined.

Lemma one_backend_witness :
  (load_backends (ImportFailed OSError) Imported).2
  = Ok (USE_WEASYPRINT (Environment := pisa_env act_html two_acts_df),
        USE_XHTML2PDF (Environment := pisa_env act_html two_acts_df)) /\
  xorb (USE_WEASYPRINT (Environment := pisa_env act_html two_acts_df))
       (USE_XHTML2PDF (Environment := pisa_env act_html two_acts_df)) = true /\
  (USE_WEASYPRINT (Environment := pisa_env act_html two_acts_df) = true <->
   ImportFailed OSError = Imported) /\
  ((generate_pdf (env := pisa_env act_html two_acts_df) "<p>Seal</p>"
      "output/act_data_id2.pdf" (start [])).1 = Ok false ->
   USE_WEASYPRINT (Environment := pisa_env act_html two_acts_df) = true /\
     (exists e part,
        write_pdf (Environment := pisa_env act_html two_acts_df) "<p>Seal</p>"
          "output/act_data_id2.pdf" = WeasyRaised e part) \/
   USE_XHTML2PDF (Environment := pisa_env act_html two_acts_df) = true /\
     (open_wb (Environment := pisa_env act_html two_acts_df)
        "output/act_data_id2.pdf" = false \/
      (exists content err,
         CreatePDF (Environment := pisa_env act_html two_acts_df) "<p>Seal</p>"
         = PisaReturned content err /\ err <> 0) \/
      (exists e content,
         CreatePDF (Environment := pisa_env act_html two_acts_df) "<p>Seal</p>"
         = PisaRaised e content))).
Proof.
  split; [reflexivity|].
  apply (one_backend (env := pisa_env act_html two_acts_df)
           (ImportFailed OSError) Imported "<p>Seal</p>" "output/act_data_id2.pdf"
           (start [])).
  reflexivity.
Defined.

Lemma certificate_from_first_row_witness :
  stem certificate_html = "certificate" /\
  has_column repeated_certificates_df "id" = true /\
  rows repeated_certificates_df
  = [[VInt 2; VStr "Alan"; VStr "Computing"; VStr "2024-02-02"]] ++
    [VInt 1; VStr "Ada"; VStr "Logic"; VStr "2024-02-01"] ::
    [[VInt 1; VStr "Ada"; VStr "Engines"; VStr "2024-03-01"]] /\
  forallb (fun r => negb (py_eq (row_id repeated_certificates_df r) (VInt 1)))
    [[VInt 2; VStr "Alan"; VStr "Computing"; VStr "2024-02-02"]] = true /\
  py_eq (row_id repeated_certificates_df
           [VInt 1; VStr "Ada"; VStr "Logic"; VStr "2024-02-01"]) (VInt 1) = true /\
  existsb is_text [VInt 1; VStr "Ada"; VStr "Logic"; VStr "2024-02-01"] = true /\
  render_template certificate_html "$student_name: $course_name"
    repeated_certificates_df (VInt 1)
  = render_certificate_template "$student_name: $course_name"
      (zip_row (columns repeated_certificates_df)
         [VInt 1; VStr "Ada"; VStr "Logic"; VStr "2024-02-01"]).
Proof.
  do 6 (split; [reflexivity|]).
  apply (certificate_from_first_row certificate_html "$student_name: $course_name"
           repeated_certificates_df (VInt 1)
           [[VInt 2; VStr "Alan"; VStr "Computing"; VStr "2024-02-02"]]
           [VInt 1; VStr "Ada"; VStr "Logic"; VStr "2024-02-01"]
           [[VInt 1; VStr "Ada"; VStr "Engines"; VStr "2024-03-01"]]);
    reflexivity.
Defined.

Lemma unique_ids_of_integers_witness :
  df_column repeated_certificates_df "id" = Ok (map VInt [2; 1; 1]) /\
  exists ids,
    unique_ids repeated_certificates_df = Ok (map VInt ids) /\
    StronglySorted Z.lt ids /\
    (forall z, z ∈ ids <-> z ∈ [2; 1; 1]).
Proof.
  split; [reflexivity|].
  apply (unique_ids_of_integers repeated_certificates_df [2; 1; 1]). reflexivity.
Defined.

Lemma unique_ids_of_mixed_column_witness :
  df_column text_id_df "id" = Ok [VStr "A-1"; VFloat nan] /\
  existsb is_text [VStr "A-1"; VFloat nan] = true /\
  existsb (fun v => negb (is_text v)) [VStr "A-1"; VFloat nan] = true /\
  unique_ids text_id_df = Raise TypeError.
Proof.
  do 3 (split; [reflexivity|]).
  apply (unique_ids_of_mixed_column text_id_df [VStr "A-1"; VFloat nan]); reflexivity.
Defined.

Lemma safe_substitute_plain_witness :
  plain "<p>Price: 5 USD</p>" = true /\
  safe_substitute (certificate_mapping "Ada" "Logic" "2024-02-01") "<p>Price: 5 USD</p>"
  = "<p>Price: 5 USD</p>".
Proof.
  split; [reflexivity|].
  apply (safe_substitute_plain (certificate_mapping "Ada" "Logic" "2024-02-01")
           "<p>Price: 5 USD</p>").
  reflexivity.
Defined.

Lemma safe_substitute_braced_witness :
  plain "<h1>" = true /\
  is_identifier "student_name" = true /\
  safe_substitute (certificate_mapping "$course_name" "Logic" "2024-02-01")
    ("<h1>" +:+ "${" +:+ "student_name" +:+ "}" +:+ "</h1>$course_name")
  = "<h1>" +:+
    default ("${" +:+ "student_name" +:+ "}")
      (certificate_mapping "$course_name" "Logic" "2024-02-01" !! "student_name") +:+
    safe_substitute (certificate_mapping "$course_name" "Logic" "2024-02-01")
      "</h1>$course_name".
Proof.
  do 2 (split; [reflexivity|]).
  apply (safe_substitute_braced (certificate_mapping "$course_name" "Logic" "2024-02-01")
           "<h1>" "student_name" "</h1>$course_name");
    reflexivity.
Defined.

Lemma batch_names_distinct_witness :
  df_column two_acts_df "id" = Ok [VInt 2; VInt 1] /\
  forallb (fun v => negb (is_float v)) [VInt 2; VInt 1] = true /\
  unique_ids two_acts_df = Ok [VInt 1; VInt 2] /\
  NoDup (map (output_filename act_html data_csv) [VInt 1; VInt 2]).
Proof.
  do 3 (split; [reflexivity|]).
  apply (batch_names_distinct act_html data_csv two_acts_df [VInt 2; VInt 1]
           [VInt 1; VInt 2]);
    reflexivity.
Defined.

Lemma choice_indexes_menu_witness :
  (get_choice (Z.of_nat (length [act_html; certificate_html]))
     (start [Line "3"; Line "2"])).1 = Ok 2 /\
  exists x,
    item [act_html; certificate_html] 2 = Ok x /\
    [act_html; certificate_html] !! Z.to_nat (2 - 1) = Some x.
Proof.
  split; [reflexivity|].
  apply (choice_indexes_menu [act_html; certificate_html] (start [Line "3"; Line "2"]) 2).
  reflexivity.
Defined.

Lemma no_templates_exit_witness :
  glob_html (Environment := empty_folder_env) = [] /\
  run (env := empty_folder_env) (start [Line "1"])
  = (1, say [MsgNoTemplates] (prepared (start [Line "1"]))).
Proof.
  split; [reflexivity|].
  apply (no_templates_exit (env := empty_folder_env) (start [Line "1"])). reflexivity.
Defined.

Lemma unreadable_template_exit_witness :
  keyboard (start [Line "9"; Line "2"; Line "1"])
  = [Line "9"] ++ Line "2" :: [Line "1"] /\
  forallb (rejected (Z.of_nat (length (glob_html (Environment := unreadable_env)))))
    [Line "9"] = true /\
  int_of_str "2" = Some 2 /\
  item (glob_html (Environment := unreadable_env)) 2 = Ok certificate_html /\
  read_text (Environment := unreadable_env) certificate_html = None /\
  run (env := unreadable_env) (start [Line "9"; Line "2"; Line "1"])
  = (0, set_keyboard [Line "1"]
          (say ([MsgMenuHeader "templates";
                 MsgMenu (map name (glob_html (Environment := unreadable_env)))] ++
                map (rejection (Z.of_nat (length (glob_html (Environment := unreadable_env)))))
                  [Line "9"] ++
                [MsgLoadingTemplate (name certificate_html);
                 MsgTemplateError (name certificate_html)])
             (prepared (start [Line "9"; Line "2"; Line "1"])))).
Proof.
  do 5 (split; [reflexivity|]).
  apply (unreadable_template_exit (env := unreadable_env)
           (start [Line "9"; Line "2"; Line "1"]) [Line "9"] "2" 2 [Line "1"]
           certificate_html);
    reflexivity.
Defined.

End MoreInstances.
